(** * The alternative UFC odds scraper ([src/ufc/scraper/scrape_odds_alt.py])

    A shallow embedding of the class [OddsScraperAlt] and of the pandas,
    requests and BeautifulSoup operations it calls, followed by the
    properties of the scraping pipeline.

    Conventions of the model.
    - Python values are the inductive type [pyval].  A finite float is
      carried by the exact rational it denotes; the two float tests the
      code can run (comparison with the literal [1.0], truthiness) are the
      IEEE-754 double ones, written as interval tests on that rational.
    - Strings are [string]; the regular expressions of the source are
      interpreted over ASCII ([\d] is [0-9], [lower()] maps [A-Z]).
    - What a method can raise is explicit: pure code lives in [outcome],
      code with effects in [M], a state monad over the [world] (requests
      issued, adapter calls, sleeps, files) with exceptions.
    - Everything outside of the source is read from an [env]: the answers
      of the network, the clock, the [ufc.utils] sleep helper.
    - [print] calls are not modelled. *)

From Stdlib Require Import String Ascii List ZArith QArith Qabs Lia Bool DecimalString.
From stdpp Require Import gmap strings.

(** ** Exceptions *)

Inductive exn : Type :=
| RequestException   (* requests: connection error, timeout *)
| HTTPError          (* raise_for_status *)
| ValueError         (* json(), float() *)
| TypeError
| KeyError
| IndexError
| AttributeError
| OSError
| OtherException (msg : string).

Inductive outcome (A : Type) : Type :=
| Ret (a : A)
| Raise (e : exn).
Arguments Ret {A} a.
Arguments Raise {A} e.

Definition outcome_bind {A B} (f : A -> outcome B) (c : outcome A) : outcome B :=
  match c with
  | Ret a => f a
  | Raise e => Raise e
  end.

#[global] Instance outcome_ret : MRet outcome := fun _ a => Ret a.
#[global] Instance outcome_mbind : MBind outcome := fun _ _ f c => outcome_bind f c.

Definition raises {A} (c : outcome A) : Prop :=
  match c with Raise _ => True | Ret _ => False end.

(** ** Python values *)

Set Warnings "-register-all".

Inductive pyval : Type :=
| PyNone
| PyBool (b : bool)
| PyInt (n : Z)
| PyFloat (x : Q)
| PyNaN
| PyStr (s : string)
| PyList (l : list pyval)
| PyDict (d : list (string * pyval))
| PyDatetime (t : Z).

(** [x == 1.0] for a float [x]: under round-to-nearest-even exactly the
    reals of [[1 - 2^-54, 1 + 2^-53]] are read as the double [1.0]. *)
Definition float_eq_one (x : Q) : bool :=
  Qle_bool (1 - (1 # 2 ^ 54)) x && Qle_bool x (1 + (1 # 2 ^ 53)).

(** [x == 0.0]: what is read as a zero is [[-2^-1075, 2^-1075]]. *)
Definition float_is_zero (x : Q) : bool :=
  Qle_bool (Qabs x) (1 # 2 ^ 1075).

(** The float literal [1.0]. *)
Definition one_point_zero : Q := 1.

(** Truth value of a Python value ([if v:]). *)
Definition truthy (v : pyval) : bool :=
  match v with
  | PyNone => false
  | PyBool b => b
  | PyInt n => negb (n =? 0)%Z
  | PyFloat x => negb (float_is_zero x)
  | PyNaN => true
  | PyStr s => negb (String.eqb s "")
  | PyList l => match l with [] => false | _ => true end
  | PyDict d => match d with [] => false | _ => true end
  | PyDatetime _ => true
  end.

(** Lookup in a [dict] held as an association list. *)
Fixpoint dict_lookup (key : string) (d : list (string * pyval)) : option pyval :=
  match d with
  | [] => None
  | (k, v) :: d' => if String.eqb k key then Some v else dict_lookup key d'
  end.

(** [v.get(key, dflt)]: only a dict has the method. *)
Definition py_get (v : pyval) (key : string) (dflt : pyval) : outcome pyval :=
  match v with
  | PyDict d => Ret (default dflt (dict_lookup key d))
  | _ => Raise AttributeError
  end.

(** [v[key]] for a string key. *)
Definition py_getitem_str (v : pyval) (key : string) : outcome pyval :=
  match v with
  | PyDict d => match dict_lookup key d with
                | Some x => Ret x
                | None => Raise KeyError
                end
  | _ => Raise TypeError
  end.

Definition string_get (i : nat) (s : string) : option string :=
  match String.get i s with
  | Some c => Some (String c EmptyString)
  | None => None
  end.

(** [v[i]] for a literal index [i >= 0].  The keys of a dict that was read
    from JSON are strings, so an integer subscript is a [KeyError]. *)
Definition py_getitem_int (v : pyval) (i : nat) : outcome pyval :=
  match v with
  | PyList l => match l !! i with
                | Some x => Ret x
                | None => Raise IndexError
                end
  | PyStr s => match string_get i s with
               | Some c => Ret (PyStr c)
               | None => Raise IndexError
               end
  | PyDict _ => Raise KeyError
  | _ => Raise TypeError
  end.

(** [len(v)] *)
Definition py_len (v : pyval) : outcome nat :=
  match v with
  | PyList l => Ret (length l)
  | PyDict d => Ret (length d)
  | PyStr s => Ret (String.length s)
  | _ => Raise TypeError
  end.

(** [v[:n]] *)
Definition py_slice_to (n : nat) (v : pyval) : outcome pyval :=
  match v with
  | PyStr s => Ret (PyStr (String.substring 0 n s))
  | PyList l => Ret (PyList (take n l))
  | _ => Raise TypeError
  end.

Fixpoint string_chars (s : string) : list string :=
  match s with
  | EmptyString => []
  | String c s' => String c EmptyString :: string_chars s'
  end.

(** [for x in v]: the items a [for] loop visits. *)
Definition py_iter (v : pyval) : outcome (list pyval) :=
  match v with
  | PyList l => Ret l
  | PyDict d => Ret (map (fun kv => PyStr (fst kv)) d)
  | PyStr s => Ret (map PyStr (string_chars s))
  | _ => Raise TypeError
  end.

(** [v == s] for a string literal [s]. *)
Definition py_eq_str (v : pyval) (s : string) : bool :=
  match v with
  | PyStr s' => String.eqb s' s
  | _ => false
  end.

Definition string_of_nat (n : nat) : string :=
  DecimalString.NilEmpty.string_of_uint (Nat.to_uint n).

Definition string_of_Z (n : Z) : string :=
  DecimalString.NilEmpty.string_of_int (Z.to_int n).

(** ** Strings and the regular expressions of the source *)

Definition chars (s : string) : list ascii := list_ascii_of_string s.
Definition of_chars (l : list ascii) : string := string_of_list_ascii l.

Definition is_digit (c : ascii) : bool :=
  let n := nat_of_ascii c in (48 <=? n) && (n <=? 57).

Definition ascii_lower (c : ascii) : ascii :=
  let n := nat_of_ascii c in
  if (65 <=? n) && (n <=? 90) then ascii_of_nat (n + 32) else c.

(** [s.lower()] *)
Definition lower (s : string) : string := of_chars (map ascii_lower (chars s)).

Fixpoint starts_with (p s : list ascii) : bool :=
  match p, s with
  | [], _ => true
  | _ :: _, [] => false
  | a :: p', b :: s' => Ascii.eqb a b && starts_with p' s'
  end.

(** [url.startswith(p)] *)
Definition startswith (p s : string) : bool := starts_with (chars p) (chars s).

(** [p in s] *)
Fixpoint contains (p s : list ascii) : bool :=
  starts_with p s || match s with [] => false | _ :: s' => contains p s' end.

(** One factor of a pattern: a character class repeated between [rmin]
    and [rmax] times ([None]: no upper bound), greedily. *)
Record item : Type := { cls : ascii -> bool; rmin : nat; rmax : option nat }.

Fixpoint span (p : ascii -> bool) (s : list ascii) : nat :=
  match s with
  | c :: s' => if p c then S (span p s') else 0
  | [] => 0
  end.

(** Tries [k], [k-1], ..., [lo] repetitions, the longest first. *)
Fixpoint greedy (f : nat -> option nat) (lo k : nat) : option nat :=
  if k <? lo then None
  else match f k with
       | Some r => Some r
       | None => match k with O => None | S k' => greedy f lo k' end
       end.

(** Matches the factors at the head of [s]; [fin] is the test on what is
    left (an end anchor).  Returns the number of characters matched. *)
Fixpoint match_here (items : list item) (fin : list ascii -> bool) (s : list ascii)
  : option nat :=
  match items with
  | [] => if fin s then Some 0 else None
  | it :: rest =>
      let avail := span (cls it) s in
      let hi := match rmax it with Some m => Nat.min m avail | None => avail end in
      greedy (fun k => match match_here rest fin (drop k s) with
                       | Some m => Some (k + m)
                       | None => None
                       end) (rmin it) hi
  end.

(** [re.search]: the leftmost position where the pattern matches. *)
Fixpoint re_search (items : list item) (s : list ascii) : option (list ascii) :=
  match match_here items (fun _ => true) s with
  | Some n => Some (take n s)
  | None => match s with
            | [] => None
            | _ :: s' => re_search items s'
            end
  end.

(** [$]: at the end of the string, or before a newline that ends it. *)
Definition at_end (s : list ascii) : bool :=
  match s with
  | [] => true
  | [c] => Ascii.eqb c "010"
  | _ => false
  end.

Definition digit (lo : nat) (hi : option nat) : item :=
  {| cls := is_digit; rmin := lo; rmax := hi |}.
Definition one_of (l : list ascii) : item :=
  {| cls := fun c => existsb (Ascii.eqb c) l; rmin := 1; rmax := Some 1 |}.

(** [r'(\d{1,2}[/-]\d{1,2}[/-]\d{2,4})'] *)
Definition date_pattern : list item :=
  [digit 1 (Some 2); one_of ["/"; "-"]%char; digit 1 (Some 2);
   one_of ["/"; "-"]%char; digit 2 (Some 4)].

(** [r'^\d+\.\d+$'] *)
Definition decimal_pattern : list item :=
  [digit 1 None; one_of ["."%char]; digit 1 None].

(** [re.match(r'^\d+\.\d+$', text)] as a truth value. *)
Definition is_decimal (text : string) : bool :=
  match match_here decimal_pattern at_end (chars text) with
  | Some _ => true
  | None => false
  end.

Definition digit_val (c : ascii) : Z := Z.of_nat (nat_of_ascii c - 48).

Definition digits_val (l : list ascii) : Z :=
  fold_left (fun acc c => (10 * acc + digit_val c)%Z) l 0%Z.

(** [float(text)] on the texts the source passes to it, those of the form
    digits, a point, digits (a final newline is white space for [float]);
    the result is the rational the numeral denotes, in lowest terms. *)
Definition py_float (text : string) : outcome Q :=
  let s := chars text in
  if is_decimal text then
    let ip := take (span is_digit s) s in
    let fp := drop (S (span is_digit s)) s in
    let fd := take (span is_digit fp) fp in
    Ret (Qred (Qmake (digits_val (ip ++ fd)) (Pos.pow 10 (Pos.of_nat (length fd)))))
  else Raise ValueError.

(** ** pandas: the part of [DataFrame] the scraper uses *)

Definition record : Type := list (string * pyval).

Record DataFrame : Type := {
  columns : list string;
  rows : list (list pyval)
}.

Fixpoint index_of (c : string) (cols : list string) : option nat :=
  match cols with
  | [] => None
  | c' :: cols' => if String.eqb c' c then Some 0 else option_map S (index_of c cols')
  end.

Definition has_column (c : string) (cols : list string) : bool :=
  match index_of c cols with Some _ => true | None => false end.

(** Adds the labels of [new] that [cols] lacks, in their order, at the end. *)
Definition add_columns (cols new : list string) : list string :=
  fold_left (fun acc c => if has_column c acc then acc else acc ++ [c]) new cols.

(** The value of row [r] in column [c]; a missing value is NaN. *)
Definition cell (cols : list string) (r : list pyval) (c : string) : pyval :=
  match index_of c cols with
  | Some i => default PyNaN (r !! i)
  | None => PyNaN
  end.

(** [pd.DataFrame(records)] for a list of dicts: the columns are the keys
    in the order of their first appearance. *)
Definition DataFrame_of_records (recs : list record) : DataFrame :=
  let cols := fold_left (fun acc r => add_columns acc (map fst r)) recs [] in
  {| columns := cols;
     rows := map (fun r => map (fun c => default PyNaN (dict_lookup c r)) cols) recs |}.

(** [pd.DataFrame(columns=cols)] *)
Definition empty_DataFrame (cols : list string) : DataFrame :=
  {| columns := cols; rows := [] |}.

(** [len(df)] *)
Definition df_len (df : DataFrame) : nat := length (rows df).

(** [df[c] = v] for a scalar [v]: an existing column is overwritten in
    place, a new one is added last. *)
Definition set_column (c : string) (v : pyval) (df : DataFrame) : DataFrame :=
  match index_of c (columns df) with
  | Some i => {| columns := columns df; rows := map (fun r => <[i := v]> r) (rows df) |}
  | None => {| columns := columns df ++ [c]; rows := map (fun r => r ++ [v]) (rows df) |}
  end.

(** The rows of [df] laid out along the columns [cols]. *)
Definition reindex (cols : list string) (df : DataFrame) : list (list pyval) :=
  map (fun r => map (cell (columns df) r) cols) (rows df).

(** [pd.concat(frames, ignore_index=True)]: outer join on the columns, in
    the order of their first appearance, the rows of the frames one frame
    after the other; no frame at all is a [ValueError]. *)
Definition pd_concat (frames : list DataFrame) : outcome DataFrame :=
  match frames with
  | [] => Raise ValueError
  | _ =>
      let cols := fold_left (fun acc df => add_columns acc (columns df)) frames [] in
      Ret {| columns := cols; rows := flat_map (reindex cols) frames |}
  end.

(** The rows of a frame as dicts over the columns [cols]. *)
Definition records_over (cols : list string) (df : DataFrame) : list record :=
  map (fun r => map (fun c => (c, cell (columns df) r c)) cols) (rows df).

(** ** The outside world *)

(** A fight row of an event page, as the queries of the row loop see it:
    the texts of its anchors to fighter pages and of its [td] cells, or
    the exception one of those queries raises. *)
Inductive fight_row : Type :=
| RowRaises (e : exn)
| Row (fighter_links : list string) (odds_cells : list string).

(** A parsed page, by the answers to the queries of the source; texts are
    those of [get_text(strip=True)]. *)
Record html : Type := {
  select : string -> list string;   (* soup.select(selector) *)
  find_all_tr : list fight_row;           (* find_all('tr', class_=fight|odd) *)
  find_all_div : list fight_row;          (* find_all('div', class_=fight|match) *)
  find_h1 : option string           (* soup.find('h1') *)
}.

Record response : Type := {
  raise_for_status : outcome unit;
  response_json : outcome pyval;    (* response.json() *)
  response_soup : outcome html      (* BeautifulSoup(response.text, 'html.parser') *)
}.

Record env : Type := {
  requests_get : nat -> string -> outcome response;  (* the n-th request of the run *)
  datetime_now : Z;                                  (* clock at construction *)
  strftime_now : string;            (* datetime.now().strftime('%d %b %y') *)
  sleep_randomly : nat -> outcome unit;              (* the n-th utils.sleep_randomly() *)
  to_csv_error : option exn;        (* what writing the output file raises *)
  to_csv_partial : option DataFrame -> option DataFrame;
                                    (* what a failing write leaves under the path,
                                       given what was there: nothing new when the
                                       file cannot be opened, a truncated or partly
                                       written file otherwise *)
  py_repr : pyval -> string         (* str() of floats and containers *)
}.

Record world : Type := {
  requests : list string;           (* URLs requested so far *)
  page_calls : list string;         (* locators handed to the page adapter *)
  sleeps : nat;                     (* calls of sleep_randomly so far *)
  fs : gmap string DataFrame        (* files written, by path *)
}.

Definition M (A : Type) : Type := world -> outcome A * world.

Definition M_ret {A} (a : A) : M A := fun w => (Ret a, w).

Definition M_bind {A B} (f : A -> M B) (c : M A) : M B :=
  fun w => match c w with
           | (Ret a, w') => f a w'
           | (Raise e, w') => (Raise e, w')
           end.

#[global] Instance M_mret : MRet M := @M_ret.
#[global] Instance M_mbind : MBind M := @M_bind.

(** [try: c  except Exception as e: h e] *)
Definition try_except {A} (c : M A) (h : exn -> M A) : M A :=
  fun w => match c w with
           | (Ret a, w') => (Ret a, w')
           | (Raise e, w') => h e w'
           end.

Definition lift {A} (c : outcome A) : M A := fun w => (c, w).

Definition http_get (E : env) (url : string) : M response :=
  fun w =>
    (requests_get E (length (requests w)) url,
     {| requests := requests w ++ [url]; page_calls := page_calls w;
        sleeps := sleeps w; fs := fs w |}).

Definition sleep (E : env) : M unit :=
  fun w =>
    (sleep_randomly E (sleeps w),
     {| requests := requests w; page_calls := page_calls w;
        sleeps := S (sleeps w); fs := fs w |}).

Definition enter_page_adapter (url : string) : M unit :=
  fun w =>
    (Ret tt,
     {| requests := requests w; page_calls := page_calls w ++ [url];
        sleeps := sleeps w; fs := fs w |}).

(** [df.to_csv(path, index=False)].  pandas opens the file, which
    truncates it, before it writes the rows: a write that raises can leave
    the file as it was, or created, truncated or partly written. *)
Definition to_csv (E : env) (path : string) (df : DataFrame) : M unit :=
  fun w =>
    match to_csv_error E with
    | Some e => (Raise e,
                 {| requests := requests w; page_calls := page_calls w;
                    sleeps := sleeps w;
                    fs := partial_alter (to_csv_partial E) path (fs w) |})
    | None => (Ret tt,
               {| requests := requests w; page_calls := page_calls w;
                  sleeps := sleeps w; fs := <[path := df]> (fs w) |})
    end.

(** [str(v)], as an f-string formats a value. *)
Definition py_str (E : env) (v : pyval) : string :=
  match v with
  | PyStr s => s
  | PyNone => "None"
  | PyBool true => "True"
  | PyBool false => "False"
  | PyInt n => string_of_Z n
  | _ => py_repr E v
  end.

(** A [for] loop without [break] over [l], threading the loop's state. *)
Fixpoint for_each {A S} (f : S -> A -> outcome S) (l : list A) (s : S) : outcome S :=
  match l with
  | [] => Ret s
  | a :: l' => s' ← f s a; for_each f l' s'
  end.

(** ** class OddsScraperAlt *)

(** A row of [event_links]: the frame has the columns [Date], [Event] and
    [url] and the default index 0, 1, 2, ... *)
Record EventLink : Type := { Date : string; Event : string; url : string }.

Record OddsScraperAlt : Type := {
  test : bool;
  odds_api_key : option string;
  event_links : option (list EventLink);
  event_odds : option DataFrame;
  curr_time : Z
}.

Definition oddsshark_url : string := "https://www.oddsshark.com/ufc/odds".
Definition odds_api_base : string := "https://api.the-odds-api.com/v4".

(** [f"{self.odds_api_base}/sports/mma_mixed_martial_arts/odds"] *)
Definition odds_api_url : string :=
  odds_api_base +:+ "/sports/mma_mixed_martial_arts/odds".

Definition __init__ (E : env) (test : bool) (odds_api_key : option string)
  : OddsScraperAlt :=
  {| test := test; odds_api_key := odds_api_key; event_links := None;
     event_odds := None; curr_time := datetime_now E |}.

Definition set_event_links (self : OddsScraperAlt) (v : option (list EventLink))
  : OddsScraperAlt :=
  {| test := test self; odds_api_key := odds_api_key self; event_links := v;
     event_odds := event_odds self; curr_time := curr_time self |}.

Definition set_event_odds (self : OddsScraperAlt) (v : option DataFrame)
  : OddsScraperAlt :=
  {| test := test self; odds_api_key := odds_api_key self;
     event_links := event_links self; event_odds := v;
     curr_time := curr_time self |}.

(** *** Event discovery *)

Definition sample_events : list EventLink :=
  [ {| Date := "19 Jul 25"; Event := "UFC 304: Edwards vs Muhammad 2";
       url := "oddsshark_sample_1" |};
    {| Date := "27 Jul 25"; Event := "UFC Fight Night: Sandhagen vs Nurmagomedov";
       url := "oddsshark_sample_2" |} ].

(** The CSS selectors tried in turn (the quotation marks the source puts
    around the attribute values are left out). *)
Definition selectors : list string :=
  [ "div[class*=event]"; "div[class*=fight]"; "div[class*=match]";
    "tr[class*=event]"; "tr[class*=fight]"; ".event-row"; ".fight-row" ].

(** The dict appended for an element text, [n] events being found already. *)
Definition event_of_text (E : env) (text : string) (n : nat) : EventLink :=
  {| Date := match re_search date_pattern (chars text) with
             | Some m => of_chars m
             | None => strftime_now E
             end;
     Event := String.substring 0 100 text;
     url := "oddsshark_" +:+ string_of_nat n |}.

Definition is_ufc_text (text : string) : bool :=
  negb (String.eqb text "") && contains (chars "ufc") (chars (lower text))
  && (5 <? String.length text).

(** The inner loop [for elem in elements[:5]], with its [break]. *)
Fixpoint scan_elements (E : env) (texts : list string) (events : list EventLink)
  : list EventLink :=
  match texts with
  | [] => events
  | text :: rest =>
      if is_ufc_text text then
        let events' := events ++ [event_of_text E text (length events)] in
        if 10 <=? length events' then events' else scan_elements E rest events'
      else scan_elements E rest events
  end.

(** The outer loop [for selector in selectors], with its [break]. *)
Fixpoint scan_selectors (E : env) (page : html) (sels : list string)
  (events : list EventLink) : list EventLink :=
  match sels with
  | [] => events
  | sel :: rest =>
      let events' := scan_elements E (take 5 (select page sel)) events in
      if 10 <=? length events' then events' else scan_selectors E page rest events'
  end.

Definition _get_events_from_oddsshark (E : env) : M (list EventLink) :=
  try_except
    (response ← http_get E oddsshark_url;
     _ ← lift (raise_for_status response);
     soup ← lift (response_soup response);
     mret (scan_selectors E soup selectors []))
    (fun _ => mret []).

Definition get_individual_event_urls (E : env) (self : OddsScraperAlt)
  : M OddsScraperAlt :=
  events ← try_except (_get_events_from_oddsshark E) (fun _ => mret []);
  let events := match events with [] => sample_events | _ => events end in
  mret (set_event_links self (Some events)).

(** *** The live API adapter *)

(** The dict appended for a qualifying market. *)
Definition api_record (E : env) (event event_name commence_time outcomes : pyval)
  : outcome record :=
  id ← py_get event "id" (PyStr "");
  date ← (if truthy commence_time then py_slice_to 10 commence_time
          else Ret (PyStr ""));
  o0 ← py_getitem_int outcomes 0;
  fighter1 ← py_get o0 "name" (PyStr "");
  o1 ← py_getitem_int outcomes 1;
  fighter2 ← py_get o1 "name" (PyStr "");
  fighter1_odds ← py_get o0 "price" (PyFloat one_point_zero);
  fighter2_odds ← py_get o1 "price" (PyFloat one_point_zero);
  mret [ ("link", PyStr ("odds_api_" +:+ py_str E id));
         ("date", date);
         ("event", event_name);
         ("fighter1", fighter1);
         ("fighter2", fighter2);
         ("fighter1_odds", fighter1_odds);
         ("fighter2_odds", fighter2_odds);
         ("result", PyStr "") ].

(** The body of [for market in markets]. *)
Definition scan_market (E : env) (event event_name commence_time : pyval)
  (results : list record) (market : pyval) : outcome (list record) :=
  key ← py_get market "key" PyNone;
  if py_eq_str key "h2h" then
    outs ← py_get market "outcomes" (PyList []);
    n ← py_len outs;
    if 2 <=? n then
      outcomes ← py_getitem_str market "outcomes";
      r ← api_record E event event_name commence_time outcomes;
      mret (results ++ [r])
    else mret results
  else mret results.

(** The body of [for event in data]. *)
Definition scan_event (E : env) (results : list record) (event : pyval)
  : outcome (list record) :=
  event_name ← py_get event "sport_title" (PyStr "UFC Event");
  commence_time ← py_get event "commence_time" (PyStr "");
  bms ← py_get event "bookmakers" PyNone;
  if truthy bms then
    bookmakers ← py_getitem_str event "bookmakers";
    bookmaker ← py_getitem_int bookmakers 0;
    markets ← py_get bookmaker "markets" (PyList []);
    ms ← py_iter markets;
    for_each (scan_market E event event_name commence_time) ms results
  else mret results.

Definition api_results (E : env) (data : pyval) : outcome (list record) :=
  events ← py_iter data;
  for_each (scan_event E) events [].

Definition _scrape_from_odds_api (E : env) (self : OddsScraperAlt)
  : M (option DataFrame) :=
  try_except
    (response ← http_get E odds_api_url;
     _ ← lift (raise_for_status response);
     data ← lift (response_json response);
     results ← lift (api_results E data);
     match results with
     | [] => mret None
     | _ => mret (Some (DataFrame_of_records results))
     end)
    (fun _ => mret None).

(** *** The page-scrape adapter *)

(** A float literal with two decimals, given in hundredths. *)
Definition float_lit (hundredths : Z) : Q := Qred (hundredths # 100).

(** A dict of the page adapter: [{'event': ..., 'fighter1': ..., ...,
    'result': ''}]. *)
Definition fight_dict (event fighter1 fighter2 : string) (odds1 odds2 : Q) : record :=
  [ ("event", PyStr event);
    ("fighter1", PyStr fighter1);
    ("fighter2", PyStr fighter2);
    ("fighter1_odds", PyFloat odds1);
    ("fighter2_odds", PyFloat odds2);
    ("result", PyStr "") ].

Definition sample_fights : list record :=
  [ fight_dict "UFC 304: Edwards vs Muhammad 2"
      "Leon Edwards" "Belal Muhammad" (float_lit 185) (float_lit 195);
    fight_dict "UFC 304: Edwards vs Muhammad 2"
      "Tom Aspinall" "Curtis Blaydes" (float_lit 145) (float_lit 275);
    fight_dict "UFC Fight Night: Sandhagen vs Nurmagomedov"
      "Cory Sandhagen" "Umar Nurmagomedov" (float_lit 210) (float_lit 175);
    fight_dict "UFC Fight Night: Sandhagen vs Nurmagomedov"
      "Shara Magomedov" "Michal Oleksiejczuk" (float_lit 165) (float_lit 225) ].

Definition _scrape_oddsshark_event : DataFrame := DataFrame_of_records sample_fights.

(** The loop [for cell in odds_cells] with its [break]; the state is the
    pair of [fighter1_odds] and [fighter2_odds]. *)
Fixpoint scan_cells (cells : list string) (fighter1_odds fighter2_odds : Q)
  : outcome (Q * Q) :=
  match cells with
  | [] => Ret (fighter1_odds, fighter2_odds)
  | text :: rest =>
      if is_decimal text then
        odds_val ← py_float text;
        if float_eq_one fighter1_odds then scan_cells rest odds_val fighter2_odds
        else if float_eq_one fighter2_odds then Ret (fighter1_odds, odds_val)
        else scan_cells rest fighter1_odds fighter2_odds
      else scan_cells rest fighter1_odds fighter2_odds
  end.

Definition list_item {A} (l : list A) (i : nat) : outcome A :=
  match l !! i with
  | Some x => Ret x
  | None => Raise IndexError
  end.

(** The [try] block of the row loop: [fights] after the row. *)
Definition row_fights (page : html) (fights : list record) (r : fight_row)
  : outcome (list record) :=
  match r with
  | RowRaises e => Raise e
  | Row fighter_links odds_cells =>
      if 2 <=? length fighter_links then
        fighter1 ← list_item fighter_links 0;
        fighter2 ← list_item fighter_links 1;
        odds ← scan_cells odds_cells one_point_zero one_point_zero;
        mret (fights ++
              [ fight_dict (default "UFC Event" (find_h1 page))
                  fighter1 fighter2 (fst odds) (snd odds) ])
      else mret fights
  end.

(** One turn of [for row in fight_rows]: a row that raises is skipped. *)
Definition scan_row (page : html) (fights : list record) (r : fight_row) : list record :=
  match row_fights page fights r with
  | Ret fights' => fights'
  | Raise _ => fights
  end.

Definition page_fights (page : html) : list record :=
  let fight_rows := match find_all_tr page with
                    | [] => find_all_div page
                    | tr_rows => tr_rows
                    end in
  fold_left (scan_row page) fight_rows [].

Definition _scrape_event_odds_page (E : env) (url : string) : M (option DataFrame) :=
  _ ← enter_page_adapter url;
  try_except
    (if startswith "oddsshark_" url then mret (Some _scrape_oddsshark_event)
     else
       response ← http_get E url;
       _ ← lift (raise_for_status response);
       soup ← lift (response_soup response);
       match page_fights soup with
       | [] => mret None
       | fights => mret (Some (DataFrame_of_records fights))
       end)
    (fun _ => mret None).

(** *** The aggregator *)

(** [results["link"] = row['url']; results["date"] = row['Date']] *)
Definition attach_link_date (row : EventLink) (results : DataFrame) : DataFrame :=
  set_column "date" (PyStr (Date row)) (set_column "link" (PyStr (url row)) results).

(** [scraped_results] after the [if] of the [try] block, [results] being
    what the adapter returned. *)
Definition staged_after (row : EventLink) (scraped_results : list DataFrame)
  (results : option DataFrame) : list DataFrame :=
  match results with
  | Some df =>
      if 0 <? df_len df then scraped_results ++ [attach_link_date row df]
      else scraped_results
  | None => scraped_results
  end.

(** The lines of the [try] block up to the [append]: what
    [scraped_results] is when [sleep_randomly] is reached. *)
Definition scrape_event (E : env) (row : EventLink) (scraped_results : list DataFrame)
  : M (list DataFrame) :=
  results ← _scrape_event_odds_page E (url row);
  mret (staged_after row scraped_results results).

(** The [try] statement of the event loop.  [scraped_results] is a list
    changed in place: when the adapter raises it is as before, when the
    sleep raises the frame appended before it stays. *)
Definition loop_body (E : env) (row : EventLink) (scraped_results : list DataFrame)
  : M (list DataFrame) :=
  try_except
    (scraped_results' ← scrape_event E row scraped_results;
     try_except (_ ← sleep E; mret scraped_results') (fun _ => mret scraped_results'))
    (fun _ => mret scraped_results).

(** [for i, row in self.event_links.iterrows()], from index [i] on. *)
Fixpoint event_loop (E : env) (self : OddsScraperAlt) (i : nat)
  (event_rows : list EventLink) (scraped_results : list DataFrame)
  : M (list DataFrame) :=
  match event_rows with
  | [] => mret scraped_results
  | row :: rest =>
      if test self && (2 <=? i) then mret scraped_results
      else
        scraped_results' ← loop_body E row scraped_results;
        event_loop E self (S i) rest scraped_results'
  end.

Definition output_columns : list string :=
  [ "link"; "date"; "event"; "fighter1"; "fighter2";
    "fighter1_odds"; "fighter2_odds"; "result"; "timestamp" ].

(** [if self.odds_api_key:] *)
Definition has_api_key (self : OddsScraperAlt) : bool :=
  match odds_api_key self with
  | Some k => negb (String.eqb k "")
  | None => false
  end.

Definition scrape_all_event_odds (E : env) (self : OddsScraperAlt) : M OddsScraperAlt :=
  match event_links self with
  | None | Some [] => mret self
  | Some event_rows =>
      scraped_results ←
        (if has_api_key self then
           api_results ← _scrape_from_odds_api E self;
           match api_results with
           | Some df => mret [df]
           | None => mret []
           end
         else mret []);
      scraped_results ← event_loop E self 0 event_rows scraped_results;
      match scraped_results with
      | [] => mret (set_event_odds self (Some (empty_DataFrame output_columns)))
      | _ =>
          odds_df ← lift (pd_concat scraped_results);
          mret (set_event_odds self
                  (Some (set_column "timestamp" (PyDatetime (curr_time self)) odds_df)))
      end
  end.

(** *** The output writer *)

Definition output_path : string := "./data/odds_raw.csv".

Definition write_data (E : env) (self : OddsScraperAlt) : M unit :=
  match event_odds self with
  | Some df => to_csv E output_path df
  | None => mret tt
  end.

(** The script: discovery, aggregation, writing. *)
Definition main (E : env) (test : bool) (api_key : option string) : M unit :=
  scraper ← get_individual_event_urls E (__init__ E test api_key);
  scraper ← scrape_all_event_odds E scraper;
  write_data E scraper.

Definition fresh_world : world :=
  {| requests := []; page_calls := []; sleeps := 0; fs := ∅ |}.

(** * The database setup script ([src/database/setup_database.py])

    The script drives collaborators that are not part of the sources at
    hand ([UFCDatabase], [UFCDataMigrator], [get_backup_path],
    [backup_database]).  They are parameters of the model: every call to
    one of them is entered in a journal with its success, and what a call
    raises, what [os.path.exists] answers and which backup path is chosen
    are read from a record of [collaborators].  Logging is not modelled. *)

Module SetupDatabase.

Inductive call : Type :=
| get_backup_path (db_path : string)
| backup_database (db_path backup_path : string)
| UFCDatabase (db_path : string)
| create_tables
| create_indexes
| db_close
| UFCDataMigrator (db_path dir : string)
| migrate_complete_data (data_file : string)
| migrator_close.

(** The calls made so far, each with [true] if it returned and [false]
    if it raised. *)
Definition journal : Type := list (call * bool).

Record collaborators : Type := {
  os_path_exists : journal -> string -> bool;
  backup_path_for : string -> string;
  raised_by : journal -> call -> option exn
}.

Definition DB (A : Type) : Type := journal -> outcome A * journal.

Definition DB_ret {A} (a : A) : DB A := fun j => (Ret a, j).

Definition DB_bind {A B} (f : A -> DB B) (c : DB A) : DB B :=
  fun j => match c j with
           | (Ret a, j') => f a j'
           | (Raise e, j') => (Raise e, j')
           end.

#[global] Instance DB_mret : MRet DB := @DB_ret.
#[global] Instance DB_mbind : MBind DB := @DB_bind.

Definition reraise {A} (e : exn) : DB A := fun j => (Raise e, j).

(** A call to a collaborator. *)
Definition perform (C : collaborators) (c : call) : DB unit :=
  fun j => match raised_by C j c with
           | Some e => (Raise e, j ++ [(c, false)])
           | None => (Ret tt, j ++ [(c, true)])
           end.

(** [os.path.exists(path)] *)
Definition path_exists (C : collaborators) (path : string) : DB bool :=
  fun j => (Ret (os_path_exists C j path), j).

(** [try: body  except Exception as e: handler e  finally: cleanup]:
    the cleanup runs in every case, and what it raises wins. *)
Definition try_except_finally {A} (body : DB A) (handler : exn -> DB A)
  (cleanup : DB unit) : DB A :=
  fun j =>
    let '(r, j1) := match body j with
                    | (Ret a, j1) => (Ret a, j1)
                    | (Raise e, j1) => handler e j1
                    end in
    match cleanup j1 with
    | (Ret _, j2) => (r, j2)
    | (Raise e, j2) => (Raise e, j2)
    end.

(** [if data_file:] for an optional string. *)
Definition given (data_file : option string) : bool :=
  match data_file with
  | Some f => negb (String.eqb f "")
  | None => false
  end.

(** The body of [setup_database]; [a and b] asks for [b] only when [a]
    holds. *)
Definition setup_database (C : collaborators) (db_path : string)
  (data_file : option string) (backup_existing : bool) : DB unit :=
  do_backup ← (if backup_existing then path_exists C db_path else DB_ret false);
  _ ← (if (do_backup : bool) then
         _ ← perform C (get_backup_path db_path);
         perform C (backup_database db_path (backup_path_for C db_path))
       else DB_ret tt);
  _ ← perform C (UFCDatabase db_path);
  _ ← try_except_finally
        (_ ← perform C create_tables; perform C create_indexes)
        (fun e => reraise e)
        (perform C db_close);
  match data_file with
  | Some f =>
      do_migrate ← (if given data_file then path_exists C f else DB_ret false);
      if (do_migrate : bool) then
        _ ← perform C (UFCDataMigrator db_path ".");
        try_except_finally
          (perform C (migrate_complete_data f))
          (fun e => reraise e)
          (perform C migrator_close)
      else DB_ret tt
  | None => DB_ret tt
  end.

(** The parsed command line. *)
Record args : Type := {
  db_path : string;        (* --db-path, default ufc_data.db *)
  data_file : string;      (* --data-file, default complete_ufc_data.csv *)
  no_backup : bool;        (* --no-backup *)
  schema_only : bool       (* --schema-only *)
}.

(** [main()] after [parse_args]: the exit status of the process, 1 when
    [sys.exit(1)] is reached, and the journal. *)
Definition main (C : collaborators) (a : args) : nat * journal :=
  let data_file := if schema_only a then None else Some (data_file a) in
  match setup_database C (db_path a) data_file (negb (no_backup a)) [] with
  | (Ret _, j) => (0, j)
  | (Raise _, j) => (1, j)
  end.

(** Collaborators that never fail, with every path present. *)
Definition healthy : collaborators :=
  {| os_path_exists := fun _ _ => true;
     backup_path_for := fun p => p +:+ ".bak";
     raised_by := fun _ _ => None |}.

(** The same, but creating the tables fails. *)
Definition broken_schema : collaborators :=
  {| os_path_exists := fun _ _ => true;
     backup_path_for := fun p => p +:+ ".bak";
     raised_by := fun _ c => match c with
                             | create_tables => Some (OtherException "sqlite3.Error")
                             | _ => None
                             end |}.

Definition default_args : args :=
  {| db_path := "ufc_data.db"; data_file := "complete_ufc_data.csv";
     no_backup := false; schema_only := false |}.

(** The calls of a journal that returned, those that raised. *)
Definition failed (j : journal) : list call :=
  map fst (List.filter (fun entry => negb (snd entry)) j).

Definition calls (j : journal) : list call := map fst j.

Definition is_migrator_call (c : call) : bool :=
  match c with
  | UFCDataMigrator _ _ | migrate_complete_data _ | migrator_close => true
  | _ => false
  end.


End SetupDatabase.


(** ** Sample environments, used to run the model *)

(** No network: every request times out. *)
Definition offline : env :=
  {| requests_get := fun _ _ => Raise RequestException;
     datetime_now := 1793700000;
     strftime_now := "03 Nov 26";
     sleep_randomly := fun _ => Ret tt;
     to_csv_error := None;
     to_csv_partial := fun old => old;
     py_repr := fun _ => "" |}.

Definition no_page : html :=
  {| select := fun _ => []; find_all_tr := []; find_all_div := []; find_h1 := None |}.

(** Every request is answered by the same response. *)
Definition serving (r : response) : env :=
  {| requests_get := fun _ _ => Ret r;
     datetime_now := 1793700000;
     strftime_now := "03 Nov 26";
     sleep_randomly := fun _ => Ret tt;
     to_csv_error := None;
     to_csv_partial := fun old => old;
     py_repr := fun _ => "" |}.

Definition page_response (page : html) : response :=
  {| raise_for_status := Ret tt; response_json := Raise ValueError;
     response_soup := Ret page |}.

Definition json_response (data : pyval) : response :=
  {| raise_for_status := Ret tt; response_json := Ret data;
     response_soup := Ret no_page |}.

(** An event page with one fight row whose first decimal cell reads 1.0. *)
Definition even_money_page : html :=
  {| select := fun _ => [];
     find_all_tr := [Row ["Leon Edwards"; "Belal Muhammad"] ["1.0"; "2.5"; "3.5"]];
     find_all_div := [];
     find_h1 := Some "UFC 304" |}.

Definition title_fight : html :=
  {| select := fun _ => [];
     find_all_tr := [Row ["Leon Edwards"; "Belal Muhammad"] ["Jul 27"; "1.85"; "1.95"; "2.40"]];
     find_all_div := [];
     find_h1 := Some "UFC 304" |}.

Definition outcome_of (name : string) (price : Q) : pyval :=
  PyDict [("name", PyStr name); ("price", PyFloat price)].

(** A payload of the odds API: one event, one bookmaker, one h2h market. *)
Definition one_market_payload : pyval :=
  PyList [ PyDict [ ("id", PyStr "e912");
                    ("sport_title", PyStr "MMA");
                    ("commence_time", PyStr "2025-07-27T02:00:00Z");
                    ("bookmakers",
                     PyList [ PyDict [ ("key", PyStr "draftkings");
                                       ("markets",
                                        PyList [ PyDict [ ("key", PyStr "h2h");
                                                          ("outcomes",
                                                           PyList [ outcome_of "Leon Edwards" (float_lit 185);
                                                                    outcome_of "Belal Muhammad" (float_lit 195) ]) ] ]) ] ]) ] ].

(** The same payload with the commence time as a number (epoch seconds). *)
Definition numeric_time_payload : pyval :=
  PyList [ PyDict [ ("id", PyStr "e912");
                    ("sport_title", PyStr "MMA");
                    ("commence_time", PyInt 1753581600);
                    ("bookmakers",
                     PyList [ PyDict [ ("key", PyStr "draftkings");
                                       ("markets",
                                        PyList [ PyDict [ ("key", PyStr "h2h");
                                                          ("outcomes",
                                                           PyList [ outcome_of "Leon Edwards" (float_lit 185);
                                                                    outcome_of "Belal Muhammad" (float_lit 195) ]) ] ]) ] ]) ] ].

(** One well-formed event of the odds API, as an object. *)
Definition one_market_event : pyval :=
  PyDict [ ("id", PyStr "e912");
           ("sport_title", PyStr "MMA");
           ("commence_time", PyStr "2025-07-27T02:00:00Z");
           ("bookmakers",
            PyList [ PyDict [ ("key", PyStr "draftkings");
                              ("markets",
                               PyList [ PyDict [ ("key", PyStr "h2h");
                                                 ("outcomes",
                                                  PyList [ outcome_of "Leon Edwards" (float_lit 185);
                                                           outcome_of "Belal Muhammad" (float_lit 195) ]) ] ]) ] ]) ].

(** A sample file system with other files in it. *)
Definition disk_with_files : world :=
  {| requests := []; page_calls := []; sleeps := 0;
     fs := {[ "./data/ufc_fights.csv" := empty_DataFrame ["fight"] ]} |}.

(** No network, and a disk that fails while the file is written: the
    file is left empty. *)
Definition disk_full : env :=
  {| requests_get := fun _ _ => Raise RequestException;
     datetime_now := 1793700000;
     strftime_now := "03 Nov 26";
     sleep_randomly := fun _ => Ret tt;
     to_csv_error := Some OSError;
     to_csv_partial := fun _ => Some (empty_DataFrame []);
     py_repr := fun _ => "" |}.

Definition bfo_event (n : nat) : EventLink :=
  {| Date := "27 Jul 25"; Event := "UFC 304";
     url := "https://www.bestfightodds.com/events/" +:+ string_of_nat n |}.

Definition run {A} (c : M A) : outcome A := fst (c fresh_world).

(** ** Notions used in the statements *)

(** The request for the page [u], issued in world [w], fails: the fetch
    raises, the status is an error, or the page cannot be parsed. *)
Definition fetch_fails (E : env) (u : string) (w : world) : Prop :=
  match requests_get E (length (requests w)) u with
  | Raise _ => True
  | Ret r => raises (raise_for_status r) \/ raises (response_soup r)
  end.

(** The listing page of event discovery cannot be had. *)
Definition primary_fails (E : env) (w : world) : Prop :=
  fetch_fails E oddsshark_url w.

(** The request to the odds API, issued in world [w], fails: the fetch
    raises, the status is an error, the body is not JSON, or the payload
    has not the shape the adapter reads. *)
Definition api_fails (E : env) (w : world) : Prop :=
  match requests_get E (length (requests w)) odds_api_url with
  | Raise _ => True
  | Ret r => raises (raise_for_status r) \/
             raises (data ← response_json r; api_results E data)
  end.

(** A computation that returns, whatever the world it starts from. *)
Definition returns {A} (c : M A) : Prop :=
  forall w, exists a w', c w = (Ret a, w').

(** Computations that leave the log of adapter calls alone. *)
Definition keeps_calls {A} (c : M A) : Prop :=
  forall w, page_calls (c w).2 = page_calls w.

(** The keys of the dicts the API adapter appends. *)
Definition api_columns : list string :=
  [ "link"; "date"; "event"; "fighter1"; "fighter2";
    "fighter1_odds"; "fighter2_odds"; "result" ].

(** The keys of the dicts the page adapter appends. *)
Definition fight_columns : list string :=
  [ "event"; "fighter1"; "fighter2"; "fighter1_odds"; "fighter2_odds"; "result" ].

(** The columns of a page adapter table once the aggregator has attached
    the link and the date. *)
Definition page_columns : list string := fight_columns ++ ["link"; "date"].

(** A row, read as a dict, with the run's time stamp. *)
Definition stamp (t : Z) (r : record) : record := r ++ [("timestamp", PyDatetime t)].

(** What the aggregator stages for the API adapter, called in world [w]:
    nothing, or, when a key is configured, the table the adapter returned. *)
Definition from_api (E : env) (self : OddsScraperAlt) (w : world)
  (api : list DataFrame) : Prop :=
  api = [] \/
  exists a, has_api_key self = true /\
            (_scrape_from_odds_api E self w).1 = Ret (Some a) /\ api = [a].

(** [page_contributions E events pages]: the tables [pages] come from the
    page adapter, one for each event of a subsequence of [events], in the
    order of [events], each with the link and date of its event. *)
Inductive page_contributions (E : env) : list EventLink -> list DataFrame -> Prop :=
| pc_nil : page_contributions E [] []
| pc_skip row rest pages :
    page_contributions E rest pages ->
    page_contributions E (row :: rest) pages
| pc_take row rest pages df w :
    (_scrape_event_odds_page E (url row) w).1 = Ret (Some df) ->
    0 < df_len df ->
    page_contributions E rest pages ->
    page_contributions E (row :: rest) (attach_link_date row df :: pages).

(** The table the aggregator builds from the staged tables. *)
Definition final_table (t : Z) (staged : list DataFrame) : DataFrame :=
  match staged with
  | [] => empty_DataFrame output_columns
  | df :: _ =>
      set_column "timestamp" (PyDatetime t)
        {| columns := columns df; rows := flat_map (reindex (columns df)) staged |}
  end.

(** Tables whose columns are those of one of the two adapters. *)
Definition staged_ok (staged : list DataFrame) : Prop :=
  Forall (fun df => columns df = api_columns \/ columns df = page_columns) staged.

(** Dicts that all have the keys [cols], in this order. *)
Definition keyed (cols : list string) (recs : list record) : Prop :=
  Forall (fun r => map fst r = cols) recs.

(** The float a cell text of the form digits, point, digits denotes; the
    value given to other texts is never read. *)
Definition decimal_value (text : string) : Q :=
  match py_float text with
  | Ret x => x
  | Raise _ => one_point_zero
  end.

(** The events the loop of the aggregator reaches: all of them, the first
    two in test mode. *)
Definition processed (self : OddsScraperAlt) : list EventLink :=
  let event_rows := default [] (event_links self) in
  if test self then take 2 event_rows else event_rows.

(** A locator that marks sample data. *)
Definition synthetic (u : string) : bool := startswith "oddsshark_" u.

(** The world after further requests, adapter calls and sleeps. *)
Definition advance (w : world) (reqs calls : list string) (n : nat) : world :=
  {| requests := requests w ++ reqs; page_calls := page_calls w ++ calls;
     sleeps := sleeps w + n; fs := fs w |}.

(** The requests the event loop issues for the events [l]: one for each
    locator that is not synthetic. *)
Definition page_requests (l : list EventLink) : list string :=
  List.filter (fun u => negb (synthetic u)) (map url l).

(** The request the aggregator issues before the loop. *)
Definition api_requests (self : OddsScraperAlt) : list string :=
  if has_api_key self then [odds_api_url] else [].

(** The locator discovery gives to the event found in position [i]. *)
Definition found_url (i : nat) : string := "oddsshark_" +:+ string_of_nat i.

(** What discovery guarantees of a list of found events: at most [bound]
    of them, numbered locators, names of at most 100 characters. *)
Definition found_ok (bound : nat) (events : list EventLink) : Prop :=
  length events <= bound /\
  map url events = map found_url (seq 0 (length events)) /\
  Forall (fun e => String.length (Event e) <= 100) events.

(** The odds read from the cells of a row. *)
Definition cell_odds (cells : list string) : Q * Q :=
  match scan_cells cells one_point_zero one_point_zero with
  | Ret odds => odds
  | Raise _ => (one_point_zero, one_point_zero)
  end.

(** The dicts a fight row adds: one for a row with two fighter links or
    more, none for a row with fewer or a row that raises. *)
Definition row_record (page : html) (r : fight_row) : list record :=
  match r with
  | Row (link1 :: link2 :: _) cells =>
      [ fight_dict (default "UFC Event" (find_h1 page)) link1 link2
          (fst (cell_odds cells)) (snd (cell_odds cells)) ]
  | _ => []
  end.

(** The rows the page adapter reads: the [tr] rows, the [div] rows when
    there is no [tr] row. *)
Definition fight_rows (page : html) : list fight_row :=
  match find_all_tr page with
  | [] => find_all_div page
  | tr_rows => tr_rows
  end.

(** [isinstance(v, dict)] *)
Definition is_dict (v : pyval) : bool :=
  match v with PyDict _ => true | _ => false end.

(** An event entry of the API payload that the adapter passes over: a
    dict whose [bookmakers] is missing or falsy (null, an empty list). *)
Definition without_bookmakers (event : pyval) : Prop :=
  exists d, event = PyDict d /\
            truthy (default PyNone (dict_lookup "bookmakers" d)) = false.

(** What the aggregator stages before the loop, called in world [w]: the
    table of the API adapter, when a key is configured and the adapter
    returns one. *)
Definition api_staged (E : env) (self : OddsScraperAlt) (w : world) : list DataFrame :=
  if has_api_key self then
    match (_scrape_from_odds_api E self w).1 with
    | Ret (Some df) => [df]
    | _ => []
    end
  else [].

(** The table staged for a synthetic event. *)
Definition sample_table (row : EventLink) : DataFrame :=
  attach_link_date row _scrape_oddsshark_event.

(** A non-empty run of decimal digits. *)
Definition digits (l : list ascii) : bool :=
  match l with [] => false | _ => forallb is_digit l end.

Definition newline : ascii := "010"%char.

(** The tables the page adapter returns in the course of the event loop
    over [rows], started in world [w], each with its event: the adapter
    is called in the world the turn before left (after its sleep), and a
    table counts when it has a row. *)
Fixpoint page_results (E : env) (rows : list EventLink) (w : world)
  : list (EventLink * DataFrame) :=
  match rows with
  | [] => []
  | row :: rest =>
      let '(results, w1) := _scrape_event_odds_page E (url row) w in
      match results with
      | Ret (Some df) =>
          (if 0 <? df_len df then [(row, df)] else [])
          ++ page_results E rest (sleep E w1).2
      | Ret None => page_results E rest (sleep E w1).2
      | Raise _ => page_results E rest w1
      end
  end.

(** The rows of a table of the page adapter as they enter the result:
    each row, in the order of the table, under the link and the date of
    the event. *)
Definition page_rows (row : EventLink) (df : DataFrame) : list record :=
  map (fun r => ("link", PyStr (url row)) :: ("date", PyStr (Date row)) :: r)
    (records_over fight_columns df).

(** A table as the page adapter builds it: six columns, six cells a row. *)
Definition fight_table (df : DataFrame) : Prop :=
  columns df = fight_columns /\ Forall (fun r => length r = 6) (rows df).

(** * Properties *)

(** ** Reasoning about [M] *)

Lemma returns_ret {A} (a : A) : returns (mret a : M A).
Proof. intros w. by exists a, w. Qed.

Lemma returns_bind {A B} (c : M A) (f : A -> M B) :
  returns c -> (forall a, returns (f a)) -> returns (c ≫= f).
Proof.
  intros Hc Hf w. destruct (Hc w) as (a & w1 & Hcw).
  destruct (Hf a w1) as (b & w2 & Hfw). exists b, w2.
  unfold mbind, M_mbind, M_bind. by rewrite Hcw.
Qed.

Lemma returns_try_except {A} (c : M A) (h : exn -> M A) :
  (forall e, returns (h e)) -> returns (try_except c h).
Proof.
  intros Hh w. unfold try_except.
  destruct (c w) as [[a|e] w1]; [by exists a, w1 | apply Hh].
Qed.

Lemma returns_enter url : returns (enter_page_adapter url).
Proof. intros w. by eexists _, _. Qed.

Lemma bind_returned {A B} (c : M A) (f : A -> M B) w a w1 :
  c w = (Ret a, w1) -> (c ≫= f) w = f a w1.
Proof. intros Hc. unfold mbind, M_mbind, M_bind. by rewrite Hc. Qed.

(** A failing [try] block is answered by the handler. *)
Lemma try_except_raise {A} (c : M A) (h : exn -> M A) w e w1 :
  c w = (Raise e, w1) -> try_except c h w = h e w1.
Proof. intros Hc. unfold try_except. by rewrite Hc. Qed.

Lemma keeps_calls_ret {A} (a : A) : keeps_calls (mret a : M A).
Proof. by intros w. Qed.

Lemma keeps_calls_lift {A} (c : outcome A) : keeps_calls (lift c).
Proof. by intros w. Qed.

Lemma keeps_calls_bind {A B} (c : M A) (f : A -> M B) :
  keeps_calls c -> (forall a, keeps_calls (f a)) -> keeps_calls (c ≫= f).
Proof.
  intros Hc Hf w. unfold mbind, M_mbind, M_bind.
  specialize (Hc w). destruct (c w) as [[a|e] w1]; simpl in *; [|done].
  by rewrite Hf.
Qed.

Lemma keeps_calls_try_except {A} (c : M A) (h : exn -> M A) :
  keeps_calls c -> (forall e, keeps_calls (h e)) -> keeps_calls (try_except c h).
Proof.
  intros Hc Hh w. unfold try_except.
  specialize (Hc w). destruct (c w) as [[a|e] w1]; simpl in *; [done|].
  by rewrite Hh.
Qed.

Lemma keeps_calls_http_get E u : keeps_calls (http_get E u).
Proof. by intros w. Qed.

Lemma keeps_calls_sleep E : keeps_calls (sleep E).
Proof. by intros w. Qed.

Create HintDb scraper.

#[local] Hint Resolve returns_ret returns_bind returns_try_except returns_enter
  keeps_calls_ret keeps_calls_lift keeps_calls_bind keeps_calls_try_except
  keeps_calls_http_get keeps_calls_sleep : scraper.

(** ** The adapters and the loop return *)

Lemma api_adapter_returns E self : returns (_scrape_from_odds_api E self).
Proof. unfold _scrape_from_odds_api. auto with scraper. Qed.

Lemma page_adapter_returns E url : returns (_scrape_event_odds_page E url).
Proof. unfold _scrape_event_odds_page. auto with scraper. Qed.

Lemma discovery_source_returns E : returns (_get_events_from_oddsshark E).
Proof. unfold _get_events_from_oddsshark. auto with scraper. Qed.

Lemma discovery_returns E self : returns (get_individual_event_urls E self).
Proof. unfold get_individual_event_urls. auto with scraper. Qed.

Lemma loop_body_returns E row staged : returns (loop_body E row staged).
Proof. unfold loop_body. auto with scraper. Qed.

Lemma event_loop_returns E self rows : forall i staged,
  returns (event_loop E self i rows staged).
Proof.
  induction rows as [|row rest IH]; intros i staged; cbn [event_loop].
  - auto with scraper.
  - destruct (test self && (2 <=? i)); [auto with scraper|].
    apply returns_bind; [apply loop_body_returns | auto].
Qed.

Lemma aggregator_returns E self : returns (scrape_all_event_odds E self).
Proof.
  unfold scrape_all_event_odds.
  destruct (event_links self) as [[|row rest]|]; auto with scraper.
  apply returns_bind.
  { destruct (has_api_key self); auto with scraper.
    apply returns_bind; [apply api_adapter_returns|].
    intros [df|]; auto with scraper. }
  intros staged. apply returns_bind; [apply event_loop_returns|].
  intros [|df staged']; auto with scraper.
  intros w. by eexists _, _.
Qed.

(** ** What the adapters add to the log of calls *)

Lemma api_adapter_keeps_calls E self : keeps_calls (_scrape_from_odds_api E self).
Proof.
  unfold _scrape_from_odds_api.
  repeat (first [ apply keeps_calls_try_except | apply keeps_calls_bind
                | apply keeps_calls_http_get | apply keeps_calls_lift
                | apply keeps_calls_ret | intros ? ]).
  destruct a2; auto with scraper.
Qed.

Lemma page_adapter_calls E u w :
  page_calls (_scrape_event_odds_page E u w).2 = page_calls w ++ [u].
Proof.
  unfold _scrape_event_odds_page, mbind, M_mbind, M_bind at 1.
  cbn [enter_page_adapter].
  match goal with |- page_calls (try_except ?c ?h ?w').2 = _ =>
    assert (Hk : keeps_calls (try_except c h)) end.
  { apply keeps_calls_try_except; [|auto with scraper].
    destruct (startswith _ _); [auto with scraper|].
    repeat (first [ apply keeps_calls_bind | apply keeps_calls_http_get
                  | apply keeps_calls_lift | intros ? ]).
    destruct (page_fights _); auto with scraper. }
  by rewrite Hk.
Qed.

(** One turn of the event loop: the adapter is called, what it returned is
    staged, the loop sleeps, and the turn ends normally. *)
Lemma loop_body_spec E row staged w :
  exists results w1,
    _scrape_event_odds_page E (url row) w = (Ret results, w1) /\
    loop_body E row staged w
    = (Ret (staged_after row staged results), (sleep E w1).2).
Proof.
  destruct (page_adapter_returns E (url row) w) as (results & w1 & Hp).
  exists results, w1. split; [done|].
  unfold loop_body, try_except, scrape_event, mbind, M_mbind, M_bind.
  rewrite Hp. cbn [mret M_mret M_ret].
  by destruct (sleep E w1) as [[[]|e] w2].
Qed.

Lemma loop_body_calls E row staged w :
  page_calls (loop_body E row staged w).2 = page_calls w ++ [url row].
Proof.
  destruct (loop_body_spec E row staged w) as (results & w1 & Hp & ->).
  pose proof (page_adapter_calls E (url row) w) as Hc.
  rewrite Hp in Hc. simpl in *. done.
Qed.

Lemma event_loop_calls E self rows : forall i staged w,
  page_calls (event_loop E self i rows staged w).2
  = page_calls w ++ map url (if test self then take (2 - i) rows else rows).
Proof.
  induction rows as [|row rest IH]; intros i staged w; cbn [event_loop].
  - destruct (test self); [rewrite take_nil|]; simpl; by rewrite app_nil_r.
  - destruct (test self) eqn:Ht; cbn [andb].
    + destruct (2 <=? i) eqn:Hi.
      * apply Nat.leb_le in Hi. replace (2 - i) with 0 by lia.
        simpl. by rewrite app_nil_r.
      * apply Nat.leb_gt in Hi. replace (2 - i) with (S (2 - S i)) by lia.
        unfold mbind, M_mbind, M_bind.
        pose proof (loop_body_calls E row staged w) as Hb.
        destruct (loop_body_returns E row staged w) as (s1 & w1 & Hl).
        rewrite Hl in Hb |- *. simpl in Hb.
        specialize (IH (S i) s1 w1). rewrite IH, Hb.
        simpl. by rewrite <- app_assoc.
    + unfold mbind, M_mbind, M_bind.
      pose proof (loop_body_calls E row staged w) as Hb.
      destruct (loop_body_returns E row staged w) as (s1 & w1 & Hl).
      rewrite Hl in Hb |- *. simpl in Hb.
      specialize (IH (S i) s1 w1). rewrite IH, Hb.
      simpl. by rewrite <- app_assoc.
Qed.

(** ** Test mode *)

Lemma aggregator_calls E self w :
  page_calls (scrape_all_event_odds E self w).2
  = page_calls w ++ map url (let rows := default [] (event_links self) in
                             if test self then take 2 rows else rows).
Proof.
  unfold scrape_all_event_odds.
  destruct (event_links self) as [[|row rest]|] eqn:Hl; cbn [default].
  1,3: destruct (test self); simpl; by rewrite app_nil_r.
  set (rows := row :: rest).
  match goal with |- context [mbind _ ?c] =>
    assert (Hk : keeps_calls c /\ returns c); [|set (api := c) in *] end.
  { split; destruct (has_api_key self); auto with scraper.
    - apply keeps_calls_bind; [apply api_adapter_keeps_calls|].
      intros [df|]; auto with scraper.
    - apply returns_bind; [apply api_adapter_returns|].
      intros [df|]; auto with scraper. }
  destruct Hk as [Hk Hr]. specialize (Hk w). destruct (Hr w) as (s0 & w0 & Ha).
  unfold mbind, M_mbind, M_bind. rewrite Ha in Hk |- *. simpl in Hk.
  pose proof (event_loop_calls E self rows 0 s0 w0) as Hc.
  destruct (event_loop_returns E self rows 0 s0 w0) as (s1 & w1 & He).
  rewrite He in Hc |- *. simpl in Hc. rewrite Hk in Hc.
  destruct s1 as [|df s1]; [done|].
  unfold lift. by destruct (pd_concat (df :: s1)).
Qed.

(** C7.  In test mode the page adapter is called for the first two
    discovered events, in their order, and for no event at position 2 or
    beyond, however many events were discovered. *)
Theorem test_mode_scrapes_first_two E self w :
  test self = true ->
  page_calls (scrape_all_event_odds E self w).2
  = page_calls w ++ map url (take 2 (default [] (event_links self))).
Proof. intros Ht. rewrite aggregator_calls. simpl. by rewrite Ht. Qed.

Lemma test_mode_scrapes_first_two_witness :
  page_calls
    (scrape_all_event_odds offline
       (set_event_links (__init__ offline true None)
          (Some [bfo_event 1; bfo_event 2; bfo_event 3; bfo_event 4]))
       fresh_world).2
  = [url (bfo_event 1); url (bfo_event 2)].
Proof.
  exact (test_mode_scrapes_first_two offline
           (set_event_links (__init__ offline true None)
              (Some [bfo_event 1; bfo_event 2; bfo_event 3; bfo_event 4]))
           fresh_world eq_refl).
Defined.

(** ** The output writer *)

(** C10.  Without a scrape result [write_data] returns without writing:
    the world, and in it every file, is as before. *)
Theorem write_data_without_result E self w :
  event_odds self = None ->
  write_data E self w = (Ret tt, w) /\ fs (write_data E self w).2 = fs w.
Proof. intros Hn. unfold write_data. by rewrite Hn. Qed.

Lemma write_data_without_result_witness :
  write_data offline (__init__ offline false None) fresh_world = (Ret tt, fresh_world)
  /\ fs (write_data offline (__init__ offline false None) fresh_world).2 = fs fresh_world.
Proof.
  exact (write_data_without_result offline (__init__ offline false None)
           fresh_world eq_refl).
Defined.

(** ** Event discovery *)

Lemma discovery_source_fails E w :
  primary_fails E w -> exists w', _get_events_from_oddsshark E w = (Ret [], w').
Proof.
  unfold primary_fails, fetch_fails, _get_events_from_oddsshark, try_except, mbind, M_mbind,
    M_bind, http_get, lift.
  destruct (requests_get E _ _) as [r|e]; [|by eexists].
  intros [H|H].
  - destruct (raise_for_status r); [done | by eexists].
  - destruct (raise_for_status r); [|by eexists].
    destruct (response_soup r); [done | by eexists].
Qed.

(** C3.  When the listing page yields no event, and in particular when
    fetching or parsing it fails, discovery returns normally and
    [event_links] is the two sample events. *)
Theorem discovery_falls_back_to_samples E self w :
  primary_fails E w \/ (_get_events_from_oddsshark E w).1 = Ret [] ->
  exists w',
    get_individual_event_urls E self w
    = (Ret (set_event_links self (Some sample_events)), w') /\
    map Event sample_events
    = ["UFC 304: Edwards vs Muhammad 2";
       "UFC Fight Night: Sandhagen vs Nurmagomedov"].
Proof.
  intros H.
  assert (exists w', _get_events_from_oddsshark E w = (Ret [], w')) as [w' Hw].
  { destruct H as [H|H]; [by apply discovery_source_fails|].
    destruct (_get_events_from_oddsshark E w) as [r w'] eqn:Hr.
    simpl in H. subst r. by exists w'. }
  exists w'. split; [|done].
  unfold get_individual_event_urls, try_except, mbind, M_mbind, M_bind.
  by rewrite Hw.
Qed.

Lemma discovery_falls_back_to_samples_witness :
  exists w',
    get_individual_event_urls offline (__init__ offline false None) fresh_world
    = (Ret (set_event_links (__init__ offline false None) (Some sample_events)), w') /\
    map Event sample_events
    = ["UFC 304: Edwards vs Muhammad 2";
       "UFC Fight Night: Sandhagen vs Nurmagomedov"].
Proof.
  apply (discovery_falls_back_to_samples offline (__init__ offline false None)
           fresh_world).
  left. vm_compute. exact I.
Defined.

(** ** Failures stay inside the adapters *)

Lemma api_adapter_degrades E self w :
  exists r w', _scrape_from_odds_api E self w = (Ret r, w') /\
               (api_fails E w -> r = None).
Proof.
  destruct (api_adapter_returns E self w) as (r & w' & Hr).
  exists r, w'. split; [done|]. revert Hr.
  unfold api_fails, _scrape_from_odds_api, try_except, mbind at 1 2 3 4, M_mbind,
    M_bind, http_get, lift.
  destruct (requests_get E _ _) as [resp|e]; [|by intros [= <- _]].
  destruct (raise_for_status resp) as [[]|e].
  - destruct (response_json resp) as [data|e]; simpl.
    + destruct (api_results E data) as [l|e]; simpl.
      * intros _ [[]|[]].
      * by intros [= <- _].
    + by intros [= <- _].
  - by intros [= <- _].
Qed.

Lemma page_adapter_degrades E u w :
  exists r w', _scrape_event_odds_page E u w = (Ret r, w') /\
               (startswith "oddsshark_" u = false -> fetch_fails E u w -> r = None).
Proof.
  destruct (page_adapter_returns E u w) as (r & w' & Hr).
  exists r, w'. split; [done|]. intros Hu. revert Hr.
  unfold fetch_fails, _scrape_event_odds_page, try_except, mbind, M_mbind,
    M_bind, http_get, lift, enter_page_adapter.
  rewrite Hu. cbn [requests].
  destruct (requests_get E _ _) as [resp|e]; [|by intros [= <- _]].
  destruct (raise_for_status resp) as [[]|e].
  - destruct (response_soup resp) as [page|e].
    + intros _ [[]|[]].
    + by intros [= <- _].
  - by intros [= <- _].
Qed.

Lemma event_loop_step E self i row rest staged w :
  test self && (2 <=? i) = false ->
  exists results w1,
    _scrape_event_odds_page E (url row) w = (Ret results, w1) /\
    event_loop E self i (row :: rest) staged w
    = event_loop E self (S i) rest (staged_after row staged results) (sleep E w1).2.
Proof.
  intros Hc. destruct (loop_body_spec E row staged w) as (results & w1 & Hp & Hb).
  exists results, w1. split; [done|].
  cbn [event_loop]. rewrite Hc. unfold mbind, M_mbind, M_bind. by rewrite Hb.
Qed.

(** C9.  No failure of a fetch, of a parse or of a row leaves an adapter,
    the event loop or the aggregator as an exception: the API adapter and
    the page adapter always return, with no table when their request
    fails; a row that raises leaves the fights as they are; a turn of the
    event loop whose adapter gives no table goes on with the next event
    and the staged tables unchanged; the aggregator returns, and so does
    discovery followed by the aggregator; the whole script returns as
    long as writing the output file does not fail. *)
Theorem no_failure_propagates E :
  (forall self w, exists r w',
      _scrape_from_odds_api E self w = (Ret r, w') /\ (api_fails E w -> r = None)) /\
  (forall u w, exists r w',
      _scrape_event_odds_page E u w = (Ret r, w') /\
      (startswith "oddsshark_" u = false -> fetch_fails E u w -> r = None)) /\
  (forall page fights e, scan_row page fights (RowRaises e) = fights) /\
  (forall self i row rest staged w,
      test self && (2 <=? i) = false ->
      exists results w1,
        _scrape_event_odds_page E (url row) w = (Ret results, w1) /\
        (results = None ->
         event_loop E self i (row :: rest) staged w
         = event_loop E self (S i) rest staged (sleep E w1).2)) /\
  (forall self i rows staged, returns (event_loop E self i rows staged)) /\
  (forall self, returns (scrape_all_event_odds E self)) /\
  (forall self,
      returns (scraper ← get_individual_event_urls E self;
               scrape_all_event_odds E scraper)) /\
  (to_csv_error E = None -> forall test api_key, returns (main E test api_key)).
Proof.
  repeat split.
  - apply api_adapter_degrades.
  - apply page_adapter_degrades.
  - intros self i row rest staged w Hc.
    destruct (event_loop_step E self i row rest staged w Hc)
      as (results & w1 & Hp & Hl).
    exists results, w1. split; [done|]. by intros ->.
  - intros. apply event_loop_returns.
  - apply aggregator_returns.
  - intros self. apply returns_bind;
      [apply discovery_returns | intros; apply aggregator_returns].
  - intros Hdisk test api_key. unfold main.
    apply returns_bind; [apply discovery_returns|]. intros s1.
    apply returns_bind; [apply aggregator_returns|]. intros s2.
    unfold write_data. destruct (event_odds s2) as [df|]; [|apply returns_ret].
    intros w. unfold to_csv. rewrite Hdisk. by eexists _, _.
Qed.

Lemma no_failure_propagates_witness :
  (exists w', _scrape_from_odds_api offline (__init__ offline false (Some "key"))
                fresh_world = (Ret None, w')) /\
  (exists w', _scrape_event_odds_page offline (url (bfo_event 1)) fresh_world
              = (Ret None, w')) /\
  (exists w1,
      event_loop offline (__init__ offline false None) 0
        [bfo_event 1; bfo_event 2] [] fresh_world
      = event_loop offline (__init__ offline false None) 1 [bfo_event 2] [] w1) /\
  returns (main offline false None).
Proof.
  destruct (no_failure_propagates offline)
    as (Hapi & Hpage & _ & Hloop & _ & _ & _ & Hmain).
  split; [|split; [|split]]; [| | |exact (Hmain eq_refl false None)].
  - destruct (Hapi (__init__ offline false (Some "key")) fresh_world)
      as (r & w' & Hr & Hf).
    exists w'. rewrite Hr. f_equal. f_equal. apply Hf. vm_compute. exact I.
  - destruct (Hpage (url (bfo_event 1)) fresh_world) as (r & w' & Hr & Hf).
    exists w'. rewrite Hr. f_equal. f_equal.
    apply Hf; vm_compute; [reflexivity | exact I].
  - destruct (Hloop (__init__ offline false None) 0 (bfo_event 1) [bfo_event 2] []
                fresh_world eq_refl) as (results & w1 & Hp & Hl).
    exists (sleep offline w1).2. apply Hl.
    destruct (Hpage (url (bfo_event 1)) fresh_world) as (r & w' & Hr & Hf).
    rewrite Hr in Hp. injection Hp as <- _.
    apply Hf; vm_compute; [reflexivity | exact I].
Defined.

(** ** The columns of the staged tables *)

Lemma for_each_invariant {A S} (P : S -> Prop) (f : S -> A -> outcome S) l :
  (forall s a s', P s -> f s a = Ret s' -> P s') ->
  forall s s', P s -> for_each f l s = Ret s' -> P s'.
Proof.
  intros Hf. induction l as [|a l IH]; intros s s' Hs; simpl.
  - by intros [= <-].
  - destruct (f s a) as [s1|e] eqn:Hfa; simpl; [|done].
    intros Hl. eapply IH; [|done]. eauto.
Qed.

(** Inversion of a bind in [outcome]. *)
Lemma outcome_bind_ret {A B} (c : outcome A) (f : A -> outcome B) b :
  c ≫= f = Ret b -> exists a, c = Ret a /\ f a = Ret b.
Proof. destruct c as [a|e]; simpl; [eauto | done]. Qed.

Ltac bind_inv H :=
  let a := fresh "v" in
  let Ha := fresh "Hv" in
  apply outcome_bind_ret in H as (a & Ha & H).

Lemma keyed_snoc cols recs r :
  keyed cols recs -> map fst r = cols -> keyed cols (recs ++ [r]).
Proof. intros H Hr. apply Forall_app. split; [done | by constructor]. Qed.

Lemma api_record_keys E event name time outcomes r :
  api_record E event name time outcomes = Ret r -> map fst r = api_columns.
Proof.
  unfold api_record. intros H. repeat bind_inv H. by injection H as <-.
Qed.

Lemma scan_market_keys E event name time results market results' :
  keyed api_columns results ->
  scan_market E event name time results market = Ret results' ->
  keyed api_columns results'.
Proof.
  intros Hk. unfold scan_market. intros H. bind_inv H.
  destruct (py_eq_str v "h2h"); [|by injection H as <-].
  do 2 bind_inv H.
  destruct (2 <=? v1); [|by injection H as <-].
  do 2 bind_inv H. injection H as <-.
  apply keyed_snoc; [done|]. by eapply api_record_keys.
Qed.

Lemma scan_event_keys E results event results' :
  keyed api_columns results ->
  scan_event E results event = Ret results' ->
  keyed api_columns results'.
Proof.
  intros Hk. unfold scan_event. intros H. do 3 bind_inv H.
  destruct (truthy v1); [|by injection H as <-].
  do 4 bind_inv H.
  eapply (for_each_invariant (keyed api_columns)); [|exact Hk|exact H].
  intros s a s' Hs. by apply scan_market_keys.
Qed.

Lemma api_results_keys E data results :
  api_results E data = Ret results -> keyed api_columns results.
Proof.
  unfold api_results. intros H. bind_inv H.
  eapply (for_each_invariant (keyed api_columns)); [| |exact H].
  - intros s a s' Hs. by apply scan_event_keys.
  - constructor.
Qed.

Lemma row_fights_keys page fights r fights' :
  keyed fight_columns fights ->
  row_fights page fights r = Ret fights' ->
  keyed fight_columns fights'.
Proof.
  intros Hk. destruct r as [e|links cells]; unfold row_fights; [done|].
  destruct (2 <=? length links); [|by intros H; injection H as <-].
  intros H. do 3 bind_inv H. injection H as <-.
  by apply keyed_snoc.
Qed.

Lemma page_fights_keys page : keyed fight_columns (page_fights page).
Proof.
  unfold page_fights.
  set (l := match find_all_tr page with [] => _ | _ => _ end). clearbody l.
  assert (Hk : keyed fight_columns []) by constructor.
  revert Hk. generalize (@nil record). induction l as [|r l IH]; intros fights Hk.
  - done.
  - simpl. apply IH. unfold scan_row.
    destruct (row_fights page fights r) eqn:Hr; [|done].
    by eapply row_fights_keys.
Qed.

(** The columns of a table made of dicts that all have the keys [cols]. *)
Lemma DataFrame_of_records_columns cols recs :
  add_columns [] cols = cols -> add_columns cols cols = cols ->
  recs <> [] -> keyed cols recs ->
  columns (DataFrame_of_records recs) = cols.
Proof.
  intros H0 H1 Hne Hk. unfold DataFrame_of_records. cbn [columns].
  destruct recs as [|r recs]; [done|]. clear Hne.
  apply Forall_cons in Hk as [Hr Hk]. cbn [fold_left]. rewrite Hr, H0.
  induction Hk as [|r' recs' Hr' Hk IH]; [done|].
  cbn [fold_left]. by rewrite Hr', H1.
Qed.

Lemma api_adapter_columns E self w df w' :
  _scrape_from_odds_api E self w = (Ret (Some df), w') ->
  columns df = api_columns /\ 0 < df_len df.
Proof.
  unfold _scrape_from_odds_api, try_except, mbind, M_mbind, M_bind, http_get, lift.
  destruct (requests_get E _ _) as [resp|e]; [|done].
  destruct (raise_for_status resp) as [[]|e]; [|done].
  destruct (response_json resp) as [data|e]; [|done].
  destruct (api_results E data) as [results|e] eqn:Hr; [|done].
  destruct results as [|r results]; [done|].
  intros [= <- _]. split.
  - apply DataFrame_of_records_columns; [done..|]. by eapply api_results_keys.
  - unfold df_len. simpl. lia.
Qed.

Lemma page_adapter_columns E u w df w' :
  _scrape_event_odds_page E u w = (Ret (Some df), w') ->
  columns df = fight_columns.
Proof.
  unfold _scrape_event_odds_page, try_except, mbind, M_mbind, M_bind, http_get,
    lift, enter_page_adapter.
  destruct (startswith _ u); [by intros [= <- _]|].
  destruct (requests_get E _ _) as [resp|e]; [|done].
  destruct (raise_for_status resp) as [[]|e]; [|done].
  destruct (response_soup resp) as [page|e]; [|done].
  pose proof (page_fights_keys page) as Hk.
  destruct (page_fights page) as [|r fights] eqn:Hp; [done|].
  intros [= <- _]. by apply DataFrame_of_records_columns.
Qed.

Lemma attach_link_date_columns row df :
  columns df = fight_columns -> columns (attach_link_date row df) = page_columns.
Proof.
  intros Hc. unfold attach_link_date, set_column at 2. rewrite Hc. cbn.
  unfold set_column. by cbn.
Qed.

Lemma pd_concat_staged df staged :
  staged_ok (df :: staged) ->
  pd_concat (df :: staged)
  = Ret {| columns := columns df;
           rows := flat_map (reindex (columns df)) (df :: staged) |}.
Proof.
  intros Hok. apply Forall_cons in Hok as [Hdf Hok].
  assert (H0 : add_columns [] (columns df) = columns df)
    by (destruct Hdf as [-> | ->]; reflexivity).
  assert (Hstep : forall df', staged_ok [df'] ->
            add_columns (columns df) (columns df') = columns df).
  { intros df' H'. apply Forall_cons in H' as [H' _].
    destruct Hdf as [-> | ->], H' as [-> | ->]; reflexivity. }
  assert (Hcols : fold_left (fun acc d => add_columns acc (columns d))
                    (df :: staged) [] = columns df).
  { cbn [fold_left]. rewrite H0. clear H0.
    induction Hok as [|df' staged' Hdf' Hok IH]; [done|].
    cbn [fold_left]. rewrite Hstep; [done | by constructor]. }
  unfold pd_concat. cbv zeta. by rewrite Hcols.
Qed.

Lemma page_contributions_ok E events pages :
  page_contributions E events pages -> staged_ok pages.
Proof.
  induction 1 as [|row rest pages _ IH|row rest pages df w Hp Hlen _ IH].
  - constructor.
  - done.
  - constructor; [|done]. right. apply attach_link_date_columns.
    destruct (_scrape_event_odds_page E (url row) w) as [r w'] eqn:Hr.
    simpl in Hp. subst r. by eapply page_adapter_columns.
Qed.

Lemma page_contributions_none E events : page_contributions E events [].
Proof. induction events; by constructor. Qed.

(** The event loop appends, in the order of the events, what the page
    adapter returned for them. *)
Lemma event_loop_appends E self rows : forall i staged w,
  exists pages w',
    event_loop E self i rows staged w = (Ret (staged ++ pages), w') /\
    page_contributions E rows pages.
Proof.
  induction rows as [|row rest IH]; intros i staged w.
  - exists [], w. rewrite app_nil_r. split; [done | constructor].
  - destruct (test self && (2 <=? i)) eqn:Hc.
    + exists [], w. cbn [event_loop]. rewrite Hc, app_nil_r.
      split; [done | apply page_contributions_none].
    + destruct (event_loop_step E self i row rest staged w Hc)
        as (results & w1 & Hp & ->).
      destruct (IH (S i) (staged_after row staged results) (sleep E w1).2)
        as (pages & w' & -> & Hpc).
      unfold staged_after.
      destruct results as [df|]; [destruct (0 <? df_len df) eqn:Hlen|].
      * exists (attach_link_date row df :: pages), w'.
        rewrite <- app_assoc. split; [done|].
        apply pc_take with w; [by rewrite Hp | by apply Nat.ltb_lt | done].
      * exists pages, w'. split; [done | by constructor].
      * exists pages, w'. split; [done | by constructor].
Qed.

(** What a run of the aggregator over at least one event leaves in
    [event_odds]. *)
Lemma aggregator_result E self w events :
  event_links self = Some events -> events <> [] ->
  exists api pages w',
    from_api E self w api /\ staged_ok api /\
    page_contributions E events pages /\
    scrape_all_event_odds E self w
    = (Ret (set_event_odds self (Some (final_table (curr_time self) (api ++ pages)))),
       w').
Proof.
  intros Hl Hne. unfold scrape_all_event_odds. rewrite Hl.
  destruct events as [|row rest]; [done|]. set (rows := row :: rest). clearbody rows.
  assert (Hapi : exists api w0, from_api E self w api /\ staged_ok api /\
    (if has_api_key self
     then api_results ← _scrape_from_odds_api E self;
          match api_results with Some df => mret [df] | None => mret [] end
     else mret []) w = (Ret api, w0)).
  { destruct (has_api_key self) eqn:Hkey.
    - destruct (api_adapter_returns E self w) as (r & w0 & Hr).
      unfold mbind, M_mbind, M_bind. rewrite Hr.
      destruct r as [a|].
      + exists [a], w0. split; [|split; [|done]].
        * right. exists a. by rewrite Hr.
        * constructor; [|constructor]. left. by eapply api_adapter_columns.
      + exists [], w0. split; [by left | split; [constructor | done]].
    - exists [], w. split; [by left | split; [constructor | done]]. }
  destruct Hapi as (api & w0 & Hfrom & Hok & Ha).
  destruct (event_loop_appends E self rows 0 api w0) as (pages & w1 & He & Hpc).
  exists api, pages.
  rewrite (bind_returned _ _ _ _ _ Ha), (bind_returned _ _ _ _ _ He).
  destruct (api ++ pages) as [|df staged] eqn:Hs.
  - by exists w1.
  - exists w1. repeat split; try done.
    unfold mbind, M_mbind, M_bind, lift.
    rewrite pd_concat_staged; [done|].
    rewrite <- Hs. apply Forall_app. split; [done|].
    by eapply page_contributions_ok.
Qed.

(** ** The final table *)

Lemma map_flat_map {A B C} (g : B -> C) (h : A -> list B) (l : list A) :
  map g (flat_map h l) = flat_map (fun x => map g (h x)) l.
Proof.
  induction l as [|a l IH]; [done|]. simpl. by rewrite map_app, IH.
Qed.

Lemma flat_map_pointwise {A B} (f g : A -> list B) (l : list A) :
  (forall a, f a = g a) -> flat_map f l = flat_map g l.
Proof. intros H. induction l as [|a l IH]; [done|]. simpl. by rewrite H, IH. Qed.

Lemma map_pointwise {A B} (f g : A -> B) (l : list A) :
  (forall a, f a = g a) -> map f l = map g l.
Proof. intros H. induction l as [|a l IH]; [done|]. simpl. by rewrite H, IH. Qed.

Lemma final_table_columns t staged :
  staged_ok staged ->
  columns (final_table t staged)
  = match staged with
    | [] => output_columns
    | df :: _ => columns df ++ ["timestamp"]
    end.
Proof.
  intros Hok. destruct staged as [|df staged]; [done|].
  apply Forall_cons in Hok as [Hdf _]. unfold final_table, set_column. cbn [columns].
  by destruct Hdf as [-> | ->].
Qed.

(** The rows of the final table, read as dicts over the output columns,
    are the rows of the staged tables, table after table, each with the
    time stamp. *)
Lemma final_table_records t staged :
  staged_ok staged ->
  records_over output_columns (final_table t staged)
  = map (stamp t) (flat_map (records_over api_columns) staged).
Proof.
  intros Hok. destruct staged as [|df staged]; [done|].
  pose proof Hok as Hok'. apply Forall_cons in Hok' as [Hdf _].
  unfold final_table, set_column, records_over. cbn [columns rows].
  destruct Hdf as [-> | ->];
    [ change (index_of "timestamp" api_columns) with (@None nat)
    | change (index_of "timestamp" page_columns) with (@None nat) ];
    cbn [columns rows]; rewrite map_map, !map_flat_map;
    apply flat_map_pointwise; intros d; unfold reindex;
    rewrite !map_map; apply map_pointwise; intros r; reflexivity.
Qed.

Lemma final_table_timestamps t staged :
  staged_ok staged ->
  Forall (fun r => cell (columns (final_table t staged)) r "timestamp" = PyDatetime t)
    (rows (final_table t staged)).
Proof.
  intros Hok. destruct staged as [|df staged]; [constructor|].
  pose proof Hok as Hok'. apply Forall_cons in Hok' as [Hdf _].
  unfold final_table, set_column. cbn [columns rows].
  generalize (df :: staged). intros l.
  destruct Hdf as [-> | ->];
    [ change (index_of "timestamp" api_columns) with (@None nat)
    | change (index_of "timestamp" page_columns) with (@None nat) ];
    cbn [columns rows]; apply Forall_map;
    (induction l as [|d l IH]; [constructor|]); cbn [flat_map];
    (apply Forall_app; split; [|done]);
    unfold reindex; apply Forall_map, Forall_true; intros r; reflexivity.
Qed.

(** ** C1: the column set *)

(** C1, counterexample.  A scraper on which discovery has not run has no
    event links; the aggregator returns at its first test and
    [event_odds] stays [None]: no table, with nine columns or other. *)
Lemma aggregator_without_events_leaves_no_table :
  event_links (__init__ offline false None) = None /\
  scrape_all_event_odds offline (__init__ offline false None) fresh_world
  = (Ret (__init__ offline false None), fresh_world) /\
  event_odds (__init__ offline false None) = None.
Proof. by vm_compute. Qed.

(** C1, amended.  Every run of the aggregator over at least one discovered
    event returns and leaves in [event_odds] a table whose columns are,
    up to their order, the nine output columns; this includes the runs in
    which no source produced a row. *)
Theorem result_has_the_nine_columns E self w events :
  event_links self = Some events -> events <> [] ->
  exists self' w' df,
    scrape_all_event_odds E self w = (Ret self', w') /\
    event_odds self' = Some df /\
    columns df ≡ₚ output_columns.
Proof.
  intros Hl Hne.
  destruct (aggregator_result E self w events Hl Hne)
    as (api & pages & w' & Hfrom & Hok & Hpc & Hrun).
  eexists _, w', _. split; [exact Hrun|]. split; [done|].
  assert (Hs : staged_ok (api ++ pages)).
  { apply Forall_app. split; [done | by eapply page_contributions_ok]. }
  rewrite final_table_columns by done.
  destruct (api ++ pages) as [|df staged]; [done|].
  apply Forall_cons in Hs as [[-> | ->] _]; [done|].
  unfold page_columns, output_columns.
  rewrite <- (app_assoc fight_columns).
  etrans; [apply Permutation_app_comm|].
  simpl. do 2 apply perm_skip.
  change (Permutation (["timestamp"] ++ fight_columns) (fight_columns ++ ["timestamp"])).
  apply Permutation_app_comm.
Qed.

Lemma result_has_the_nine_columns_witness :
  exists self' w' df,
    scrape_all_event_odds offline
      (set_event_links (__init__ offline false None) (Some [bfo_event 1]))
      fresh_world = (Ret self', w') /\
    event_odds self' = Some df /\
    columns df ≡ₚ output_columns.
Proof.
  apply (result_has_the_nine_columns offline
           (set_event_links (__init__ offline false None) (Some [bfo_event 1]))
           fresh_world [bfo_event 1]).
  - reflexivity.
  - discriminate.
Defined.

(** Discovery always leaves at least one event, so the script never
    takes the early return of the aggregator. *)
Lemma discovery_yields_events E self w :
  exists self' w' events,
    get_individual_event_urls E self w = (Ret self', w') /\
    event_links self' = Some events /\ events <> [].
Proof.
  unfold get_individual_event_urls, mbind, M_mbind, M_bind.
  destruct (returns_try_except (_get_events_from_oddsshark E) (fun _ => mret [])
              (fun _ => returns_ret []) w) as (events & w' & ->).
  destruct events as [|ev events]; by eexists _, _, _.
Qed.

(** ** C2: the column order *)

(** C2, the run that shows the defect.  No API key and no network:
    discovery falls back to the sample events, the page adapter gives
    the sample fights, and the columns of the result begin with [event];
    [link] and [date] come after [result]. *)
Theorem page_only_run_column_order :
  exists self' w' df,
    (scraper ← get_individual_event_urls offline (__init__ offline false None);
     scrape_all_event_odds offline scraper) fresh_world = (Ret self', w') /\
    event_odds self' = Some df /\
    columns df = [ "event"; "fighter1"; "fighter2"; "fighter1_odds";
                   "fighter2_odds"; "result"; "link"; "date"; "timestamp" ] /\
    columns df <> output_columns.
Proof.
  eexists _, _, _. split; [by vm_compute|]. split; [done|]. split; [done|].
  discriminate.
Qed.

(** ** C8: the time stamp *)

(** C8.  Every row of the result carries in [timestamp] the time read
    when the scraper was constructed: the value is the same for all rows
    of the run. *)
Theorem rows_share_the_run_timestamp E self w events :
  event_links self = Some events -> events <> [] ->
  exists self' w' df,
    scrape_all_event_odds E self w = (Ret self', w') /\
    event_odds self' = Some df /\
    Forall (fun r => cell (columns df) r "timestamp" = PyDatetime (curr_time self))
      (rows df) /\
    curr_time self' = curr_time self /\
    forall E0 t k, curr_time (__init__ E0 t k) = datetime_now E0.
Proof.
  intros Hl Hne.
  destruct (aggregator_result E self w events Hl Hne)
    as (api & pages & w1 & Hfrom & Hok & Hpc & Hrun).
  eexists _, w1, _. split; [exact Hrun|]. split; [done|]. split; [|done].
  apply final_table_timestamps.
  apply Forall_app. split; [done | by eapply page_contributions_ok].
Qed.

Lemma rows_share_the_run_timestamp_witness :
  exists self' w' df,
    scrape_all_event_odds offline
      (set_event_links (__init__ offline false None) (Some sample_events))
      fresh_world = (Ret self', w') /\
    event_odds self' = Some df /\
    Forall (fun r => cell (columns df) r "timestamp" = PyDatetime (datetime_now offline))
      (rows df) /\
    curr_time self' = datetime_now offline /\
    forall E0 t k, curr_time (__init__ E0 t k) = datetime_now E0.
Proof.
  apply (rows_share_the_run_timestamp offline
           (set_event_links (__init__ offline false None) (Some sample_events))
           fresh_world sample_events).
  - reflexivity.
  - discriminate.
Defined.

(** ** C4: the odds cells of a fight row *)

Lemma py_float_decimal text :
  is_decimal text = true -> py_float text = Ret (decimal_value text).
Proof.
  intros H. unfold decimal_value, py_float. by rewrite H.
Qed.

(** Cells that are not decimals do not count. *)
Lemma scan_cells_filter cells : forall o1 o2,
  scan_cells cells o1 o2 = scan_cells (List.filter is_decimal cells) o1 o2.
Proof.
  induction cells as [|text rest IH]; intros o1 o2; [done|].
  cbn [List.filter scan_cells].
  destruct (is_decimal text) eqn:Hd; [|apply IH].
  cbn [scan_cells]. rewrite Hd, (py_float_decimal _ Hd). simpl.
  destruct (float_eq_one o1); [apply IH|].
  destruct (float_eq_one o2); [done | apply IH].
Qed.

Lemma filter_head_decimal cells t ts :
  List.filter is_decimal cells = t :: ts -> is_decimal t = true.
Proof.
  intros H. assert (Hin : In t (List.filter is_decimal cells)) by (rewrite H; by left).
  by apply filter_In in Hin as [_ ?].
Qed.

Lemma filter_second_decimal cells t t' ts :
  List.filter is_decimal cells = t :: t' :: ts -> is_decimal t' = true.
Proof.
  intros H.
  assert (Hin : In t' (List.filter is_decimal cells)) by (rewrite H; right; by left).
  by apply filter_In in Hin as [_ ?].
Qed.

(** C4, counterexample.  A row whose decimal cells read 1.0, 2.5 and 3.5:
    the first match is stored, but as it equals the placeholder the second
    match overwrites it, and the third becomes [fighter2_odds]. *)
Lemma first_cell_even_money_shifts_the_odds :
  List.filter is_decimal ["1.0"; "2.5"; "3.5"] = ["1.0"; "2.5"; "3.5"] /\
  decimal_value "1.0" = one_point_zero /\ decimal_value "2.5" = (5 # 2)%Q /\
  run (_scrape_event_odds_page (serving (page_response even_money_page))
         (url (bfo_event 1)))
  = Ret (Some {| columns := fight_columns;
                 rows := [[ PyStr "UFC 304"; PyStr "Leon Edwards";
                            PyStr "Belal Muhammad";
                            PyFloat (5 # 2)%Q; PyFloat (7 # 2)%Q; PyStr "" ]] |}).
Proof. by vm_compute. Qed.

(** C4, amended.  For a fight row with at least two fighter links whose
    first decimal cell is not the placeholder 1.0, [fighter1_odds] is the
    value of the first decimal cell and [fighter2_odds] that of the second
    (the placeholder 1.0 if there is none); no other cell counts. *)
Theorem odds_assigned_in_cell_order page fights link1 link2 links cells t1 ts :
  List.filter is_decimal cells = t1 :: ts ->
  float_eq_one (decimal_value t1) = false ->
  row_fights page fights (Row (link1 :: link2 :: links) cells)
  = Ret (fights ++
         [ fight_dict (default "UFC Event" (find_h1 page)) link1 link2
             (decimal_value t1)
             (match ts with
              | [] => one_point_zero
              | t2 :: _ => decimal_value t2
              end) ]).
Proof.
  intros Hf Hv.
  assert (Hs : scan_cells cells one_point_zero one_point_zero
               = Ret (decimal_value t1,
                      match ts with [] => one_point_zero | t2 :: _ => decimal_value t2 end)).
  { rewrite scan_cells_filter, Hf. cbn [scan_cells].
    rewrite (filter_head_decimal _ _ _ Hf), (py_float_decimal _ (filter_head_decimal _ _ _ Hf)).
    simpl. change (float_eq_one one_point_zero) with true. cbv iota.
    destruct ts as [|t2 ts']; [done|]. cbn [scan_cells].
    rewrite (filter_second_decimal _ _ _ _ Hf),
      (py_float_decimal _ (filter_second_decimal _ _ _ _ Hf)).
    simpl. rewrite Hv. by change (float_eq_one one_point_zero) with true. }
  unfold row_fights. cbn [length Nat.leb]. unfold list_item. cbn [lookup list_lookup].
  simpl. by rewrite Hs.
Qed.

Lemma odds_assigned_in_cell_order_witness :
  row_fights title_fight []
    (Row ["Leon Edwards"; "Belal Muhammad"] ["Jul 27"; "1.85"; "1.95"; "2.40"])
  = Ret [ fight_dict "UFC 304" "Leon Edwards" "Belal Muhammad"
            (decimal_value "1.85") (decimal_value "1.95") ].
Proof.
  apply (odds_assigned_in_cell_order title_fight [] "Leon Edwards" "Belal Muhammad" []
           ["Jul 27"; "1.85"; "1.95"; "2.40"] "1.85" ["1.95"; "2.40"]).
  - reflexivity.
  - reflexivity.
Defined.

(** ** C6: the live API adapter on one market *)

(** The records read from a payload of one event with one bookmaker and
    one h2h market of two outcomes. *)
Lemma api_results_one_market E event bookmaker market o1 o2 time :
  dict_lookup "bookmakers" event = Some (PyList [PyDict bookmaker]) ->
  dict_lookup "markets" bookmaker = Some (PyList [PyDict market]) ->
  dict_lookup "key" market = Some (PyStr "h2h") ->
  dict_lookup "outcomes" market = Some (PyList [PyDict o1; PyDict o2]) ->
  default (PyStr "") (dict_lookup "commence_time" event) = PyStr time ->
  api_results E (PyList [PyDict event])
  = Ret [ [ ("link", PyStr ("odds_api_" +:+
                            py_str E (default (PyStr "") (dict_lookup "id" event))));
            ("date", PyStr (String.substring 0 10 time));
            ("event", default (PyStr "UFC Event") (dict_lookup "sport_title" event));
            ("fighter1", default (PyStr "") (dict_lookup "name" o1));
            ("fighter2", default (PyStr "") (dict_lookup "name" o2));
            ("fighter1_odds", default (PyFloat one_point_zero) (dict_lookup "price" o1));
            ("fighter2_odds", default (PyFloat one_point_zero) (dict_lookup "price" o2));
            ("result", PyStr "") ] ].
Proof.
  intros Hb Hm Hk Ho Ht.
  unfold api_results, scan_event, scan_market, api_record, py_get, py_getitem_str.
  cbn [py_iter mbind outcome_mbind outcome_bind for_each].
  rewrite Hb, Ht.
  cbn [default from_option id truthy mbind outcome_mbind outcome_bind
       py_getitem_int lookup list_lookup].
  rewrite Hm. cbn [default from_option id py_iter for_each mbind outcome_mbind outcome_bind].
  rewrite Hk, Ho.
  cbn [default from_option id py_eq_str py_len length mbind outcome_mbind outcome_bind].
  change (String.eqb "h2h" "h2h") with true. cbv iota.
  change (2 <=? 2) with true. cbv iota.
  cbn [mbind outcome_mbind outcome_bind py_getitem_int lookup list_lookup
       py_slice_to truthy].
  destruct time as [|c time']; reflexivity.
Qed.

(** C6, counterexample.  A payload of one event with one bookmaker, one
    [h2h] market and two outcomes whose commence time is a number: the
    slice [commence_time[:10]] raises, the handler of the adapter catches
    it, and no record is emitted. *)
Lemma numeric_commence_time_gives_no_record :
  _scrape_from_odds_api (serving (json_response numeric_time_payload))
    (__init__ offline false (Some "key")) fresh_world
  = (Ret None, advance fresh_world [odds_api_url] [] 0).
Proof. by vm_compute. Qed.

(** C6, amended.  When the API answers with one event holding one
    bookmaker with one market of key [h2h] and two outcomes, and the
    commence time of the event, when it has one, is a string [time], the
    adapter returns a table of one row, under the API columns:
    [fighter1] and [fighter1_odds] are the name and the price of the
    first outcome, [fighter2] and [fighter2_odds] those of the second. *)
Theorem one_h2h_market_gives_one_record E self w resp event bookmaker market o1 o2 time :
  requests_get E (length (requests w)) odds_api_url = Ret resp ->
  raise_for_status resp = Ret tt ->
  response_json resp = Ret (PyList [PyDict event]) ->
  dict_lookup "bookmakers" event = Some (PyList [PyDict bookmaker]) ->
  dict_lookup "markets" bookmaker = Some (PyList [PyDict market]) ->
  dict_lookup "key" market = Some (PyStr "h2h") ->
  dict_lookup "outcomes" market = Some (PyList [PyDict o1; PyDict o2]) ->
  default (PyStr "") (dict_lookup "commence_time" event) = PyStr time ->
  exists w',
    _scrape_from_odds_api E self w
    = (Ret (Some
        {| columns := api_columns;
           rows := [ [ PyStr ("odds_api_" +:+
                              py_str E (default (PyStr "") (dict_lookup "id" event)));
                       PyStr (String.substring 0 10 time);
                       default (PyStr "UFC Event") (dict_lookup "sport_title" event);
                       default (PyStr "") (dict_lookup "name" o1);
                       default (PyStr "") (dict_lookup "name" o2);
                       default (PyFloat one_point_zero) (dict_lookup "price" o1);
                       default (PyFloat one_point_zero) (dict_lookup "price" o2);
                       PyStr "" ] ] |}), w').
Proof.
  intros Hget Hstatus Hjson Hb Hm Hk Ho Ht.
  eexists. unfold _scrape_from_odds_api, try_except, mbind at 1 2 3 4, M_mbind, M_bind,
    http_get, lift.
  rewrite Hget, Hstatus, Hjson.
  rewrite (api_results_one_market E event bookmaker market o1 o2 time Hb Hm Hk Ho Ht).
  reflexivity.
Qed.

Lemma one_h2h_market_gives_one_record_witness :
  exists w',
    _scrape_from_odds_api (serving (json_response one_market_payload))
      (__init__ offline false (Some "key")) fresh_world
    = (Ret (Some
        {| columns := api_columns;
           rows := [ [ PyStr "odds_api_e912"; PyStr "2025-07-27"; PyStr "MMA";
                       PyStr "Leon Edwards"; PyStr "Belal Muhammad";
                       PyFloat (float_lit 185); PyFloat (float_lit 195);
                       PyStr "" ] ] |}), w').
Proof.
  exact (one_h2h_market_gives_one_record
           (serving (json_response one_market_payload))
           (__init__ offline false (Some "key")) fresh_world
           (json_response one_market_payload)
           [ ("id", PyStr "e912"); ("sport_title", PyStr "MMA");
             ("commence_time", PyStr "2025-07-27T02:00:00Z");
             ("bookmakers",
              PyList [ PyDict [ ("key", PyStr "draftkings");
                                ("markets",
                                 PyList [ PyDict [ ("key", PyStr "h2h");
                                                   ("outcomes",
                                                    PyList [ outcome_of "Leon Edwards" (float_lit 185);
                                                             outcome_of "Belal Muhammad" (float_lit 195) ]) ] ]) ] ]) ]
           [ ("key", PyStr "draftkings");
             ("markets",
              PyList [ PyDict [ ("key", PyStr "h2h");
                                ("outcomes",
                                 PyList [ outcome_of "Leon Edwards" (float_lit 185);
                                          outcome_of "Belal Muhammad" (float_lit 195) ]) ] ]) ]
           [ ("key", PyStr "h2h");
             ("outcomes",
              PyList [ outcome_of "Leon Edwards" (float_lit 185);
                       outcome_of "Belal Muhammad" (float_lit 195) ]) ]
           [ ("name", PyStr "Leon Edwards"); ("price", PyFloat (float_lit 185)) ]
           [ ("name", PyStr "Belal Muhammad"); ("price", PyFloat (float_lit 195)) ]
           "2025-07-27T02:00:00Z"
           eq_refl eq_refl eq_refl eq_refl eq_refl eq_refl eq_refl eq_refl).
Defined.

(** * Further properties of the scraper *)

(** ** The effects of a run on the world *)

Lemma advance_nothing w : advance w [] [] 0 = w.
Proof.
  destruct w. unfold advance. simpl. by rewrite !app_nil_r, Nat.add_0_r.
Qed.

Lemma advance_advance w r1 c1 n1 r2 c2 n2 :
  advance (advance w r1 c1 n1) r2 c2 n2 = advance w (r1 ++ r2) (c1 ++ c2) (n1 + n2).
Proof.
  unfold advance. simpl. by rewrite !app_assoc, Nat.add_assoc.
Qed.

Lemma request_world {A} E u (k : response -> M A) (h : exn -> M A) w
  (c := try_except (response ← http_get E u;
                    _ ← lift (raise_for_status response); k response) h) :
  (forall r, forall w0, (k r w0).2 = w0) -> (forall e w0, (h e w0).2 = w0) ->
  (c w).2 = advance w [u] [] 0.
Proof.
  intros Hk Hh. unfold c, try_except, mbind, M_mbind, M_bind, http_get, lift.
  assert (Hw : {| requests := requests w ++ [u]; page_calls := page_calls w;
                  sleeps := sleeps w; fs := fs w |} = advance w [u] [] 0).
  { unfold advance. by rewrite app_nil_r, Nat.add_0_r. }
  rewrite Hw.
  destruct (requests_get E _ _) as [r|e]; [|apply Hh].
  destruct (raise_for_status r) as [[]|e]; [|apply Hh].
  specialize (Hk r (advance w [u] [] 0)).
  destruct (k r (advance w [u] [] 0)) as [[a|e] w1]; simpl in *; [done|].
  subst w1. apply Hh.
Qed.

Lemma api_adapter_world E self w :
  (_scrape_from_odds_api E self w).2 = advance w [odds_api_url] [] 0.
Proof.
  unfold _scrape_from_odds_api. apply request_world; [|done].
  intros r w0. unfold mbind, M_mbind, M_bind, lift.
  destruct (response_json r) as [data|e]; [|done].
  destruct (api_results E data) as [[|x l]|e]; done.
Qed.

Lemma page_adapter_world E u w :
  (_scrape_event_odds_page E u w).2
  = advance w (if synthetic u then [] else [u]) [u] 0.
Proof.
  unfold _scrape_event_odds_page, mbind at 1, M_mbind, M_bind at 1, enter_page_adapter.
  unfold synthetic.
  set (w1 := {| requests := requests w; page_calls := page_calls w ++ [u];
                sleeps := sleeps w; fs := fs w |}).
  assert (Hw1 : w1 = advance w [] [u] 0).
  { unfold w1, advance. by rewrite app_nil_r, Nat.add_0_r. }
  destruct (startswith "oddsshark_" u).
  - unfold try_except. simpl. by rewrite Hw1.
  - rewrite request_world; [by rewrite Hw1, advance_advance|..|done].
    intros r w0. unfold mbind, M_mbind, M_bind, lift.
    destruct (response_soup r) as [page|e]; [|done].
    by destruct (page_fights page).
Qed.

Lemma loop_body_world E row staged w :
  (loop_body E row staged w).2
  = advance w (if synthetic (url row) then [] else [url row]) [url row] 1.
Proof.
  destruct (loop_body_spec E row staged w) as (results & w1 & Hp & ->).
  pose proof (page_adapter_world E (url row) w) as Hw. rewrite Hp in Hw.
  simpl in Hw. subst w1. unfold sleep, advance. simpl.
  by rewrite Nat.add_0_r, Nat.add_1_r.
Qed.

Lemma page_requests_cons row rest :
  page_requests (row :: rest)
  = (if synthetic (url row) then [] else [url row]) ++ page_requests rest.
Proof. unfold page_requests. simpl. by destruct (synthetic (url row)). Qed.

Lemma event_loop_world E self rows : forall i staged w,
  let reached := if test self then take (2 - i) rows else rows in
  (event_loop E self i rows staged w).2
  = advance w (page_requests reached) (map url reached) (length reached).
Proof.
  induction rows as [|row rest IH]; intros i staged w; cbn [event_loop].
  - simpl. destruct (test self); [rewrite take_nil|]; apply eq_sym, advance_nothing.
  - cbv zeta in *. destruct (test self) eqn:Ht; cbn [andb].
    + destruct (2 <=? i) eqn:Hi.
      * apply Nat.leb_le in Hi. replace (2 - i) with 0 by lia.
        apply eq_sym, advance_nothing.
      * apply Nat.leb_gt in Hi. replace (2 - i) with (S (2 - S i)) by lia.
        destruct (loop_body_returns E row staged w) as (s1 & w1 & Hl).
        pose proof (loop_body_world E row staged w) as Hb. rewrite Hl in Hb.
        rewrite (bind_returned _ _ _ _ _ Hl), IH. simpl in Hb. subst w1.
        rewrite advance_advance. cbn [take map length]. by rewrite page_requests_cons.
    + destruct (loop_body_returns E row staged w) as (s1 & w1 & Hl).
      pose proof (loop_body_world E row staged w) as Hb. rewrite Hl in Hb.
      rewrite (bind_returned _ _ _ _ _ Hl), IH. simpl in Hb. subst w1.
      rewrite advance_advance. cbn [map length]. by rewrite page_requests_cons.
Qed.

(** The world after the aggregator: the request to the API when a key is
    configured, then for every event reached a call of the page adapter,
    a request if its locator is not synthetic, and a sleep.  Without any
    event nothing happens at all. *)
Lemma aggregator_world E self w :
  (scrape_all_event_odds E self w).2
  = match event_links self with
    | None | Some [] => w
    | Some _ =>
        advance w (api_requests self ++ page_requests (processed self))
          (map url (processed self)) (length (processed self))
    end.
Proof.
  unfold scrape_all_event_odds, processed.
  destruct (event_links self) as [[|row rest]|] eqn:Hl; [done| |done].
  cbn [default]. set (rows := row :: rest).
  match goal with |- context [mbind _ ?c] =>
    assert (Hk : forall w0, (c w0).2 = advance w0 (api_requests self) [] 0
                            /\ exists s0, (c w0).1 = Ret s0); [|set (api := c) in *] end.
  { intros w0. unfold api_requests. destruct (has_api_key self).
    - pose proof (api_adapter_world E self w0) as Hw.
      destruct (api_adapter_returns E self w0) as (r & w1 & Hr).
      rewrite (bind_returned _ _ _ _ _ Hr). rewrite Hr in Hw. simpl in Hw. subst w1.
      destruct r; simpl; eauto.
    - simpl. rewrite advance_nothing. eauto. }
  destruct (Hk w) as [Hw [s0 Hs]].
  destruct (api w) as [r0 w0] eqn:Ha. simpl in Hw, Hs. subst r0 w0.
  rewrite (bind_returned _ _ _ _ _ Ha).
  pose proof (event_loop_world E self rows 0 s0 (advance w (api_requests self) [] 0)) as He.
  destruct (event_loop_returns E self rows 0 s0 (advance w (api_requests self) [] 0))
    as (s1 & w1 & Hev).
  rewrite Hev in He. rewrite (bind_returned _ _ _ _ _ Hev). cbv zeta in He.
  simpl in He. subst w1. rewrite advance_advance. simpl.
  change (take 2 rows) with (take (2 - 0) rows).
  destruct s1 as [|df s1]; [done|].
  unfold mbind, M_mbind, M_bind, lift. by destruct (pd_concat (df :: s1)).
Qed.

(** X1.  The requests of a run of the aggregator, in order: one to the
    odds API when a key is configured, then one for each event reached
    whose locator is not synthetic; nothing is requested when there is no
    event, not even the API. *)
Theorem aggregator_network_traffic E self w :
  requests (scrape_all_event_odds E self w).2
  = requests w ++
    match event_links self with
    | None | Some [] => []
    | Some _ => api_requests self ++ page_requests (processed self)
    end.
Proof.
  rewrite aggregator_world.
  destruct (event_links self) as [[|row rest]|]; simpl; by rewrite ?app_nil_r.
Qed.

(** X2.  The aggregator sleeps once for each event it reaches, whether or
    not the adapter gave a table, and it writes no file. *)
Theorem aggregator_sleeps_per_event_and_writes_nothing E self w :
  sleeps (scrape_all_event_odds E self w).2
  = sleeps w + match event_links self with
               | None => 0
               | Some _ => length (processed self)
               end /\
  fs (scrape_all_event_odds E self w).2 = fs w.
Proof.
  rewrite aggregator_world. unfold processed.
  destruct (event_links self) as [[|row rest]|]; simpl; [|done|by rewrite Nat.add_0_r].
  destruct (test self); simpl; by rewrite Nat.add_0_r.
Qed.

(** X3.  Outside test mode the page adapter is called once for every
    discovered event, in discovery order. *)
Theorem full_mode_scrapes_every_event E self w :
  test self = false ->
  page_calls (scrape_all_event_odds E self w).2
  = page_calls w ++ map url (default [] (event_links self)).
Proof. intros Ht. rewrite aggregator_calls. simpl. by rewrite Ht. Qed.

Lemma full_mode_scrapes_every_event_witness :
  page_calls
    (scrape_all_event_odds offline
       (set_event_links (__init__ offline false None)
          (Some [bfo_event 1; bfo_event 2; bfo_event 3]))
       fresh_world).2
  = [url (bfo_event 1); url (bfo_event 2); url (bfo_event 3)].
Proof.
  exact (full_mode_scrapes_every_event offline
           (set_event_links (__init__ offline false None)
              (Some [bfo_event 1; bfo_event 2; bfo_event 3]))
           fresh_world eq_refl).
Defined.

(** ** What discovery finds *)

Lemma substring_prefix_length n s : String.length (String.substring 0 n s) <= n.
Proof.
  revert s. induction n as [|n IH]; intros [|c s]; simpl; try lia.
  specialize (IH s). lia.
Qed.

Lemma found_ok_snoc bound events e :
  found_ok bound events -> length events < S bound ->
  url e = found_url (length events) -> String.length (Event e) <= 100 ->
  found_ok (S bound) (events ++ [e]).
Proof.
  intros (Hlen & Hurl & Hname) Hlt He Hn. unfold found_ok.
  rewrite length_app, map_app, Hurl. cbn [length map].
  rewrite Nat.add_1_r, seq_S, map_app, He. cbn [map Nat.add].
  split; [lia|]. split; [done|]. apply Forall_app. split; [done | by constructor].
Qed.

Lemma found_ok_weaken b b' events : found_ok b events -> b <= b' -> found_ok b' events.
Proof. intros (Hlen & Hrest) Hb. split; [lia | done]. Qed.

(** The inner loop, entered with fewer than ten events, leaves at most ten. *)
Lemma scan_elements_ok E texts : forall events,
  found_ok 9 events -> found_ok 10 (scan_elements E texts events).
Proof.
  induction texts as [|text rest IH]; intros events Hok; cbn [scan_elements].
  - by apply found_ok_weaken with 9; [|lia].
  - destruct (is_ufc_text text); [|by apply IH].
    assert (Hok' : found_ok 10 (events ++ [event_of_text E text (length events)])).
    { apply found_ok_snoc; [done | destruct Hok; lia | done |].
      apply substring_prefix_length. }
    destruct (10 <=? length (events ++ [event_of_text E text (length events)])) eqn:Hl;
      [done|].
    apply Nat.leb_gt in Hl. apply IH.
    destruct Hok' as (_ & Hurl & Hname). split; [lia | done].
Qed.

Lemma scan_selectors_ok E page sels : forall events,
  found_ok 9 events -> found_ok 10 (scan_selectors E page sels events).
Proof.
  induction sels as [|sel rest IH]; intros events Hok; cbn [scan_selectors].
  - by apply found_ok_weaken with 9; [|lia].
  - pose proof (scan_elements_ok E (take 5 (select page sel)) events Hok) as Hok'.
    cbv zeta.
    destruct (10 <=? length (scan_elements E (take 5 (select page sel)) events)) eqn:Hl;
      [done|].
    apply Nat.leb_gt in Hl. apply IH.
    destruct Hok' as (_ & Hrest). split; [lia | done].
Qed.

Lemma found_ok_nil b : found_ok b [].
Proof. split; [simpl; lia | split; [done | constructor]]. Qed.

Lemma listing_page_events E w :
  exists events,
    _get_events_from_oddsshark E w = (Ret events, advance w [oddsshark_url] [] 0) /\
    length events <= 10 /\
    map url events = map found_url (seq 0 (length events)) /\
    Forall (fun e => String.length (Event e) <= 100) events.
Proof.
  unfold _get_events_from_oddsshark, try_except, mbind, M_mbind, M_bind, http_get, lift.
  assert (Hw : {| requests := requests w ++ [oddsshark_url]; page_calls := page_calls w;
                  sleeps := sleeps w; fs := fs w |} = advance w [oddsshark_url] [] 0).
  { unfold advance. by rewrite app_nil_r, Nat.add_0_r. }
  rewrite Hw.
  destruct (requests_get E _ _) as [r|e]; [|exists []; split; [done | apply found_ok_nil]].
  destruct (raise_for_status r) as [[]|e]; [|exists []; split; [done | apply found_ok_nil]].
  destruct (response_soup r) as [page|e]; [|exists []; split; [done | apply found_ok_nil]].
  eexists. split; [done|]. apply scan_selectors_ok, found_ok_nil.
Qed.

(** X4.  The listing page yields at most ten events; the event found in
    position [i] gets the locator [oddsshark_i], and its name is cut to
    at most 100 characters.  The request is logged, nothing else changes. *)
Theorem listing_yields_at_most_ten_numbered_events E w :
  exists events,
    _get_events_from_oddsshark E w = (Ret events, advance w [oddsshark_url] [] 0) /\
    length events <= 10 /\
    map url events = map found_url (seq 0 (length events)) /\
    Forall (fun e => String.length (Event e) <= 100) events.
Proof. apply listing_page_events. Qed.

Lemma found_url_synthetic i : synthetic (found_url i) = true.
Proof. reflexivity. Qed.

Lemma found_ok_synthetic b events :
  found_ok b events -> Forall (fun e => synthetic (url e) = true) events.
Proof.
  intros (_ & Hurl & _).
  assert (H : Forall (fun u => synthetic u = true) (map url events)).
  { rewrite Hurl. apply Forall_map, Forall_true. intros i. apply found_url_synthetic. }
  by apply Forall_map in H.
Qed.

Lemma discovery_events E self w :
  exists found events,
    _get_events_from_oddsshark E w = (Ret found, advance w [oddsshark_url] [] 0) /\
    events = match found with [] => sample_events | _ => found end /\
    get_individual_event_urls E self w
    = (Ret (set_event_links self (Some events)), advance w [oddsshark_url] [] 0) /\
    1 <= length events <= 10 /\
    Forall (fun e => synthetic (url e) = true) events.
Proof.
  destruct (listing_page_events E w) as (found & Hf & Hlen & Hurl & Hname).
  exists found, (match found with [] => sample_events | _ => found end).
  split; [done|]. split; [done|]. split.
  { unfold get_individual_event_urls, try_except, mbind, M_mbind, M_bind.
    by rewrite Hf. }
  destruct found as [|e found].
  - split; [simpl; lia | by repeat constructor].
  - split; [simpl in *; lia|]. by apply (found_ok_synthetic 10).
Qed.

(** X5.  After discovery [event_links] holds the events found on the
    listing page when there are some, the two samples otherwise, never a
    mix: between one and ten events, each with a synthetic locator.
    Discovery issues the one request to the listing page. *)
Theorem discovery_result E self w :
  exists found events,
    _get_events_from_oddsshark E w = (Ret found, advance w [oddsshark_url] [] 0) /\
    events = match found with [] => sample_events | _ => found end /\
    get_individual_event_urls E self w
    = (Ret (set_event_links self (Some events)), advance w [oddsshark_url] [] 0) /\
    1 <= length events <= 10 /\
    Forall (fun e => synthetic (url e) = true) events.
Proof. apply discovery_events. Qed.

(** ** The script *)

Lemma page_requests_synthetic l :
  Forall (fun e => synthetic (url e) = true) l -> page_requests l = [].
Proof.
  induction 1 as [|e l He _ IH]; [done|].
  rewrite page_requests_cons, He, IH. done.
Qed.

Lemma processed_synthetic self events :
  event_links self = Some events ->
  Forall (fun e => synthetic (url e) = true) events ->
  Forall (fun e => synthetic (url e) = true) (processed self).
Proof.
  intros Hl Hs. unfold processed. rewrite Hl. cbn [default].
  destruct (test self); [|done]. by apply Forall_take.
Qed.

Lemma write_data_requests E self w :
  requests (write_data E self w).2 = requests w.
Proof.
  unfold write_data. destruct (event_odds self); [|done].
  unfold to_csv. by destruct (to_csv_error E).
Qed.

(** X6.  The script requests the listing page, then the odds API if a key
    is given, and nothing else: every locator discovery produces is
    synthetic, so no event page is ever fetched. *)
Theorem script_never_fetches_an_event_page E test_flag api_key w :
  requests (main E test_flag api_key w).2
  = requests w ++ oddsshark_url :: api_requests (__init__ E test_flag api_key).
Proof.
  unfold main.
  destruct (discovery_events E (__init__ E test_flag api_key) w)
    as (found & events & _ & _ & Hd & [Hlen _] & Hs).
  rewrite (bind_returned _ _ _ _ _ Hd).
  set (s1 := set_event_links (__init__ E test_flag api_key) (Some events)).
  destruct (aggregator_returns E s1 (advance w [oddsshark_url] [] 0)) as (s2 & w2 & Ha).
  pose proof (aggregator_world E s1 (advance w [oddsshark_url] [] 0)) as Ht.
  rewrite Ha in Ht. rewrite (bind_returned _ _ _ _ _ Ha), write_data_requests.
  cbn [snd] in Ht. rewrite Ht.
  rewrite (page_requests_synthetic (processed s1))
    by (by apply (processed_synthetic s1 events)).
  destruct events as [|e events]; [simpl in Hlen; lia|].
  cbn [event_links s1 set_event_links]. rewrite advance_advance. cbn [requests advance].
  rewrite !app_nil_r. done.
Qed.

Lemma page_adapter_on_synthetic_locator E u w :
  synthetic u = true ->
  _scrape_event_odds_page E u w
  = (Ret (Some _scrape_oddsshark_event), advance w [] [u] 0) /\
  columns _scrape_oddsshark_event = fight_columns /\
  df_len _scrape_oddsshark_event = 4.
Proof.
  intros Hs. split; [|done].
  pose proof (page_adapter_world E u w) as Hw. rewrite Hs in Hw.
  destruct (_scrape_event_odds_page E u w) as [r w1] eqn:Hr. simpl in Hw. subst w1.
  f_equal. revert Hr.
  unfold _scrape_event_odds_page, mbind at 1, M_mbind, M_bind at 1, enter_page_adapter,
    try_except.
  unfold synthetic in Hs. rewrite Hs. by intros [= <-].
Qed.

(** X7.  For a synthetic locator the page adapter returns the table of the
    four sample fights, whatever the locator and the state of the
    network, and requests nothing. *)
Theorem synthetic_locator_gives_the_sample_fights E u w :
  synthetic u = true ->
  _scrape_event_odds_page E u w
  = (Ret (Some _scrape_oddsshark_event), advance w [] [u] 0) /\
  columns _scrape_oddsshark_event = fight_columns /\
  df_len _scrape_oddsshark_event = 4.
Proof. apply page_adapter_on_synthetic_locator. Qed.

Lemma synthetic_locator_gives_the_sample_fights_witness :
  _scrape_event_odds_page offline "oddsshark_7" fresh_world
  = (Ret (Some _scrape_oddsshark_event),
     advance fresh_world [] ["oddsshark_7"] 0) /\
  columns _scrape_oddsshark_event = fight_columns /\
  df_len _scrape_oddsshark_event = 4.
Proof.
  exact (synthetic_locator_gives_the_sample_fights offline "oddsshark_7" fresh_world
           eq_refl).
Defined.

(** ** The rows of an event page *)

Lemma scan_cells_returns cells : forall o1 o2,
  exists odds, scan_cells cells o1 o2 = Ret odds.
Proof.
  induction cells as [|text rest IH]; intros o1 o2; cbn [scan_cells]; [eauto|].
  destruct (is_decimal text) eqn:Hd; [|apply IH].
  rewrite (py_float_decimal _ Hd). simpl.
  destruct (float_eq_one o1); [apply IH|].
  destruct (float_eq_one o2); [eauto | apply IH].
Qed.

(** X8.  A row with two fighter links and no decimal cell is kept, with
    the placeholder 1.0 for both odds. *)
Theorem row_without_odds_gets_the_placeholders page fights link1 link2 links cells :
  List.filter is_decimal cells = [] ->
  row_fights page fights (Row (link1 :: link2 :: links) cells)
  = Ret (fights ++
         [ fight_dict (default "UFC Event" (find_h1 page)) link1 link2
             one_point_zero one_point_zero ]).
Proof.
  intros Hf. unfold row_fights. cbn [length Nat.leb]. unfold list_item.
  cbn [lookup list_lookup]. simpl. by rewrite scan_cells_filter, Hf.
Qed.

Lemma row_without_odds_gets_the_placeholders_witness :
  row_fights no_page [] (Row ["Leon Edwards"; "Belal Muhammad"] ["-150"; "+130"; "TBD"])
  = Ret [ fight_dict "UFC Event" "Leon Edwards" "Belal Muhammad"
            one_point_zero one_point_zero ].
Proof.
  exact (row_without_odds_gets_the_placeholders no_page []
           "Leon Edwards" "Belal Muhammad" [] ["-150"; "+130"; "TBD"] eq_refl).
Defined.

Lemma scan_row_record page fights r :
  scan_row page fights r = fights ++ row_record page r.
Proof.
  unfold scan_row, row_record, row_fights, cell_odds.
  destruct r as [e|links cells]; [by rewrite app_nil_r|].
  destruct links as [|link1 [|link2 links]]; [by rewrite app_nil_r..|].
  cbn [length Nat.leb]. unfold list_item. cbn [lookup list_lookup]. simpl.
  destruct (scan_cells_returns cells one_point_zero one_point_zero) as [odds ->].
  done.
Qed.

(** X9.  The fights of a page are read row by row, in page order: every
    row with two fighter links or more gives one dict, a row with fewer
    links or a row that raises gives none and leaves the others as they
    are.  The [div] rows are read only when the page has no [tr] row. *)
Theorem page_fights_row_by_row page :
  page_fights page = flat_map (row_record page) (fight_rows page).
Proof.
  unfold page_fights. fold (fight_rows page).
  assert (H : forall l acc,
    fold_left (scan_row page) l acc = acc ++ flat_map (row_record page) l).
  { induction l as [|r l IH]; intros acc; simpl; [by rewrite app_nil_r|].
    by rewrite IH, scan_row_record, <- app_assoc. }
  apply H.
Qed.

(** ** The payload of the odds API *)

Lemma for_each_app {A S} (f : S -> A -> outcome S) l1 l2 s :
  for_each f (l1 ++ l2) s = (s' ← for_each f l1 s; for_each f l2 s').
Proof.
  revert s. induction l1 as [|a l1 IH]; intros s; simpl; [done|].
  destruct (f s a) as [s1|e]; simpl; [apply IH | done].
Qed.

Lemma for_each_pointwise {A S} (f g : S -> A -> outcome S) l s :
  (forall s a, f s a = g s a) -> for_each f l s = for_each g l s.
Proof.
  intros H. revert s. induction l as [|a l IH]; intros s; simpl; [done|].
  rewrite H. destruct (g s a); simpl; [apply IH | done].
Qed.

Lemma dict_lookup_other key k v v' pre post :
  k <> key ->
  dict_lookup key (pre ++ (k, v) :: post) = dict_lookup key (pre ++ (k, v') :: post).
Proof.
  intros Hk. induction pre as [|[k0 v0] pre IH]; simpl.
  - by apply String.eqb_neq in Hk as ->.
  - by rewrite IH.
Qed.

Lemma dict_lookup_here key v pre post :
  dict_lookup key pre = None ->
  dict_lookup key (pre ++ (key, v) :: post) = Some v.
Proof.
  induction pre as [|[k0 v0] pre IH]; simpl.
  - by rewrite String.eqb_refl.
  - destruct (String.eqb k0 key); [done | apply IH].
Qed.

Lemma api_record_same_id E d d' name time outcomes :
  dict_lookup "id" d = dict_lookup "id" d' ->
  api_record E (PyDict d) name time outcomes = api_record E (PyDict d') name time outcomes.
Proof.
  intros Hi. unfold api_record.
  change (py_get (PyDict d) "id" (PyStr ""))
    with (Ret (default (PyStr "") (dict_lookup "id" d)) : outcome pyval).
  change (py_get (PyDict d') "id" (PyStr ""))
    with (Ret (default (PyStr "") (dict_lookup "id" d')) : outcome pyval).
  by rewrite Hi.
Qed.

Lemma scan_market_same_id E d d' name time results market :
  dict_lookup "id" d = dict_lookup "id" d' ->
  scan_market E (PyDict d) name time results market
  = scan_market E (PyDict d') name time results market.
Proof.
  intros Hi. unfold scan_market.
  destruct (py_get market "key" PyNone) as [key|e]; [|reflexivity].
  cbn [mbind outcome_mbind outcome_bind]. destruct (py_eq_str key "h2h"); [|reflexivity].
  destruct (py_get market "outcomes" (PyList [])) as [outs|e]; [|reflexivity].
  cbn [mbind outcome_mbind outcome_bind]. destruct (py_len outs) as [n|e]; [|reflexivity].
  cbn [mbind outcome_mbind outcome_bind]. destruct (2 <=? n); [|reflexivity].
  destruct (py_getitem_str market "outcomes") as [outcomes|e]; [|reflexivity].
  cbn [mbind outcome_mbind outcome_bind].
  by rewrite (api_record_same_id E d d' name time outcomes Hi).
Qed.

Lemma scan_event_first_bookmaker E results pre post bookmaker others others' :
  dict_lookup "bookmakers" pre = None ->
  scan_event E results
    (PyDict (pre ++ ("bookmakers", PyList (bookmaker :: others)) :: post))
  = scan_event E results
      (PyDict (pre ++ ("bookmakers", PyList (bookmaker :: others')) :: post)).
Proof.
  intros Hpre.
  set (ev := pre ++ ("bookmakers", PyList (bookmaker :: others)) :: post).
  set (ev' := pre ++ ("bookmakers", PyList (bookmaker :: others')) :: post).
  assert (Hb : dict_lookup "bookmakers" ev = Some (PyList (bookmaker :: others)))
    by by apply dict_lookup_here.
  assert (Hb' : dict_lookup "bookmakers" ev' = Some (PyList (bookmaker :: others')))
    by by apply dict_lookup_here.
  assert (Hs : dict_lookup "sport_title" ev = dict_lookup "sport_title" ev')
    by by apply dict_lookup_other.
  assert (Ht : dict_lookup "commence_time" ev = dict_lookup "commence_time" ev')
    by by apply dict_lookup_other.
  assert (Hi : dict_lookup "id" ev = dict_lookup "id" ev')
    by by apply dict_lookup_other.
  clearbody ev ev'.
  unfold scan_event.
  change (py_get (PyDict ev) "sport_title" (PyStr "UFC Event"))
    with (Ret (default (PyStr "UFC Event") (dict_lookup "sport_title" ev)) : outcome pyval).
  change (py_get (PyDict ev') "sport_title" (PyStr "UFC Event"))
    with (Ret (default (PyStr "UFC Event") (dict_lookup "sport_title" ev')) : outcome pyval).
  change (py_get (PyDict ev) "commence_time" (PyStr ""))
    with (Ret (default (PyStr "") (dict_lookup "commence_time" ev)) : outcome pyval).
  change (py_get (PyDict ev') "commence_time" (PyStr ""))
    with (Ret (default (PyStr "") (dict_lookup "commence_time" ev')) : outcome pyval).
  change (py_get (PyDict ev) "bookmakers" PyNone)
    with (Ret (default PyNone (dict_lookup "bookmakers" ev)) : outcome pyval).
  change (py_get (PyDict ev') "bookmakers" PyNone)
    with (Ret (default PyNone (dict_lookup "bookmakers" ev')) : outcome pyval).
  unfold py_getitem_str. rewrite Hb, Hb', Hs, Ht.
  cbn [mbind outcome_mbind outcome_bind default from_option id truthy py_getitem_int
       lookup list_lookup].
  destruct (py_get bookmaker "markets" (PyList [])) as [markets|e];
    cbn [mbind outcome_mbind outcome_bind]; [|reflexivity].
  destruct (py_iter markets) as [ms|e];
    cbn [mbind outcome_mbind outcome_bind]; [|reflexivity].
  apply for_each_pointwise. intros s market. by apply scan_market_same_id.
Qed.

(** X10.  Only the first bookmaker of an event is read: the records of a
    payload do not change when the bookmakers after the first are
    replaced, added or removed. *)
Theorem only_the_first_bookmaker_counts E before after pre post bookmaker others others' :
  dict_lookup "bookmakers" pre = None ->
  api_results E
    (PyList (before ++
             PyDict (pre ++ ("bookmakers", PyList (bookmaker :: others)) :: post)
             :: after))
  = api_results E
      (PyList (before ++
               PyDict (pre ++ ("bookmakers", PyList (bookmaker :: others')) :: post)
               :: after)).
Proof.
  intros Hpre. unfold api_results. cbn [py_iter mbind outcome_mbind outcome_bind].
  rewrite !for_each_app. cbn [for_each].
  match goal with |- mbind _ ?c = _ => generalize c end.
  intros [s|e]; cbn [mbind outcome_mbind outcome_bind]; [|reflexivity].
  by rewrite (scan_event_first_bookmaker E s pre post bookmaker others others' Hpre).
Qed.

Lemma only_the_first_bookmaker_counts_witness :
  api_results offline
    (PyList ([] ++ PyDict ([("id", PyStr "e1")] ++
                           ("bookmakers", PyList [PyDict []; PyInt 7]) :: []) :: []))
  = api_results offline
      (PyList ([] ++ PyDict ([("id", PyStr "e1")] ++
                             ("bookmakers", PyList [PyDict []]) :: []) :: [])).
Proof.
  exact (only_the_first_bookmaker_counts offline [] [] [("id", PyStr "e1")] []
           (PyDict []) [PyInt 7] [] eq_refl).
Defined.

Lemma scan_event_without_bookmakers E results event :
  without_bookmakers event -> scan_event E results event = Ret results.
Proof.
  intros (d & -> & Hb). unfold scan_event, py_get.
  cbn [mbind outcome_mbind outcome_bind]. by rewrite Hb.
Qed.

(** X11.  An event without bookmakers is passed over: the records of the
    payload are those of the payload without it. *)
Theorem event_without_bookmakers_is_skipped E before event after :
  without_bookmakers event ->
  api_results E (PyList (before ++ event :: after))
  = api_results E (PyList (before ++ after)).
Proof.
  intros Hev. unfold api_results. cbn [py_iter mbind outcome_mbind outcome_bind].
  rewrite !for_each_app. destruct (for_each (scan_event E) before []) as [s|e]; [|done].
  cbn [mbind outcome_mbind outcome_bind for_each].
  by rewrite (scan_event_without_bookmakers E s event Hev).
Qed.

Lemma event_without_bookmakers_is_skipped_witness :
  api_results offline
    (PyList ([] ++ PyDict [("id", PyStr "e0"); ("bookmakers", PyList [])]
             :: [PyDict [("id", PyStr "e1")]]))
  = api_results offline (PyList ([] ++ [PyDict [("id", PyStr "e1")]])).
Proof.
  apply (event_without_bookmakers_is_skipped offline []
           (PyDict [("id", PyStr "e0"); ("bookmakers", PyList [])])
           [PyDict [("id", PyStr "e1")]]).
  exists [("id", PyStr "e0"); ("bookmakers", PyList [])]. split; reflexivity.
Defined.

Lemma for_each_raises {A S} (f : S -> A -> outcome S) l s :
  Exists (fun a => forall s, raises (f s a)) l -> raises (for_each f l s).
Proof.
  intros H. revert s. induction H as [a l Ha|a l _ IH]; intros s; simpl.
  - specialize (Ha s). by destruct (f s a).
  - destruct (f s a); simpl; [apply IH | done].
Qed.

(** X12.  The adapter is all or nothing: when one entry of the payload is
    not an object, reading the payload raises, and the adapter returns no
    table, whatever the other events hold. *)
Theorem malformed_event_discards_the_payload E self w resp events :
  requests_get E (length (requests w)) odds_api_url = Ret resp ->
  response_json resp = Ret (PyList events) ->
  Exists (fun event => is_dict event = false) events ->
  raises (api_results E (PyList events)) /\
  _scrape_from_odds_api E self w = (Ret None, advance w [odds_api_url] [] 0).
Proof.
  intros Hget Hjson Hbad.
  assert (Hr : raises (api_results E (PyList events))).
  { unfold api_results. cbn [py_iter mbind outcome_mbind outcome_bind].
    apply for_each_raises. eapply Exists_impl; [exact Hbad|].
    intros event Hd s. unfold scan_event. by destruct event. }
  split; [done|].
  destruct (api_adapter_degrades E self w) as (r & w' & Hrun & Hnone).
  pose proof (api_adapter_world E self w) as Hw. rewrite Hrun in Hw |- *.
  simpl in Hw. subst w'. rewrite Hnone; [done|].
  unfold api_fails. rewrite Hget. right. rewrite Hjson. exact Hr.
Qed.

Lemma malformed_event_discards_the_payload_witness :
  (exists r, api_results (serving (json_response (PyList [one_market_event; PyInt 3])))
               (PyList [one_market_event]) = Ret [r]) /\
  raises (api_results (serving (json_response (PyList [one_market_event; PyInt 3])))
            (PyList [one_market_event; PyInt 3])) /\
  _scrape_from_odds_api (serving (json_response (PyList [one_market_event; PyInt 3])))
    (__init__ offline false (Some "key")) fresh_world
  = (Ret None, advance fresh_world [odds_api_url] [] 0).
Proof.
  split; [eexists; vm_compute; reflexivity|].
  apply (malformed_event_discards_the_payload
           (serving (json_response (PyList [one_market_event; PyInt 3])))
           (__init__ offline false (Some "key")) fresh_world
           (json_response (PyList [one_market_event; PyInt 3]))
           [one_market_event; PyInt 3]).
  - reflexivity.
  - reflexivity.
  - right. left. reflexivity.
Defined.

(** ** The result of the aggregator, source by source *)

Lemma api_staged_ok E self w : staged_ok (api_staged E self w).
Proof.
  unfold api_staged. destruct (has_api_key self); [|constructor].
  destruct (_scrape_from_odds_api E self w) as [[[a|]|e] w0] eqn:Ha; simpl;
    try constructor; [|constructor].
  left. by eapply api_adapter_columns.
Qed.

(** The run of the aggregator over at least one event, with the staged
    tables named: those of [api_staged], then those of the event loop. *)
Lemma aggregator_result_exact E self w events :
  event_links self = Some events -> events <> [] ->
  exists pages w1,
    event_loop E self 0 events (api_staged E self w) (advance w (api_requests self) [] 0)
    = (Ret (api_staged E self w ++ pages), w1) /\
    page_contributions E events pages /\
    scrape_all_event_odds E self w
    = (Ret (set_event_odds self
              (Some (final_table (curr_time self) (api_staged E self w ++ pages)))), w1).
Proof.
  intros Hl Hne.
  destruct (event_loop_appends E self events 0 (api_staged E self w)
              (advance w (api_requests self) [] 0)) as (pages & w1 & He & Hpc).
  exists pages, w1. split; [done|]. split; [done|].
  unfold scrape_all_event_odds. rewrite Hl.
  destruct events as [|row rest]; [done|]. set (rows := row :: rest) in *.
  match goal with |- context [mbind _ ?c] =>
    assert (Ha : c w = (Ret (api_staged E self w), advance w (api_requests self) [] 0)) end.
  { unfold api_staged, api_requests. destruct (has_api_key self).
    - pose proof (api_adapter_world E self w) as Hw.
      destruct (api_adapter_returns E self w) as (r & w0 & Hr).
      rewrite (bind_returned _ _ _ _ _ Hr). rewrite Hr in Hw |- *.
      simpl in Hw. subst w0. by destruct r.
    - by rewrite advance_nothing. }
  rewrite (bind_returned _ _ _ _ _ Ha), (bind_returned _ _ _ _ _ He).
  destruct (api_staged E self w ++ pages) as [|df staged] eqn:Hs; [done|].
  unfold mbind, M_mbind, M_bind, lift.
  rewrite pd_concat_staged; [done|].
  rewrite <- Hs. apply Forall_app. split; [apply api_staged_ok|].
  by eapply page_contributions_ok.
Qed.

(** ** C5: the order of the rows *)

Lemma DataFrame_of_records_rows recs :
  Forall (fun r => length r = length (columns (DataFrame_of_records recs)))
    (rows (DataFrame_of_records recs)).
Proof.
  unfold DataFrame_of_records. cbn [columns rows].
  apply Forall_map, Forall_true. intros r. by rewrite length_map.
Qed.

Lemma page_adapter_table E u w df w' :
  _scrape_event_odds_page E u w = (Ret (Some df), w') -> fight_table df.
Proof.
  intros Hp. pose proof (page_adapter_columns E u w df w' Hp) as Hc.
  split; [done|]. revert Hp.
  unfold _scrape_event_odds_page, try_except, mbind, M_mbind, M_bind, http_get,
    lift, enter_page_adapter.
  assert (Hrecs : forall recs, df = DataFrame_of_records recs ->
                    Forall (fun r => length r = 6) (rows df)).
  { intros recs ->. pose proof (DataFrame_of_records_rows recs) as Hr.
    rewrite Hc in Hr. exact Hr. }
  destruct (startswith _ u); [intros [= <- _]; by eapply Hrecs|].
  destruct (requests_get E _ _) as [resp|e]; [|done].
  destruct (raise_for_status resp) as [[]|e]; [|done].
  destruct (response_soup resp) as [page|e]; [|done].
  destruct (page_fights page) as [|r fights]; [done|].
  intros [= <- _]. by eapply Hrecs.
Qed.

(** The rows of an adapter table after the link and the date are set. *)
Lemma attached_records row df :
  fight_table df ->
  records_over api_columns (attach_link_date row df) = page_rows row df.
Proof.
  intros [Hc Hrows]. unfold page_rows, records_over, attach_link_date, set_column.
  rewrite Hc. change (index_of "link" fight_columns) with (@None nat).
  cbn [columns rows].
  change (index_of "date" (fight_columns ++ ["link"])) with (@None nat).
  cbn [columns rows]. rewrite !map_map.
  induction Hrows as [|r rs Hr _ IH]; [done|].
  cbn [map]. rewrite IH. f_equal.
  destruct r as [|c1 [|c2 [|c3 [|c4 [|c5 [|c6 [|c7 r]]]]]]]; try discriminate Hr.
  reflexivity.
Qed.

Lemma page_results_tables E rows : forall w,
  Forall (fun entry => fight_table entry.2) (page_results E rows w).
Proof.
  induction rows as [|row rest IH]; intros w; cbn [page_results]; [constructor|].
  destruct (_scrape_event_odds_page E (url row) w) as [[[df|]|e] w1] eqn:Hp; [|done..].
  apply Forall_app. split; [|done].
  destruct (0 <? df_len df); constructor; [|constructor].
  by eapply page_adapter_table.
Qed.

Lemma attached_tables_records (l : list (EventLink * DataFrame)) :
  Forall (fun entry => fight_table entry.2) l ->
  flat_map (records_over api_columns)
    (map (fun entry => attach_link_date entry.1 entry.2) l)
  = flat_map (fun entry => page_rows entry.1 entry.2) l.
Proof.
  induction 1 as [|[row df] l Hdf _ IH]; [done|].
  cbn [map flat_map fst snd] in *. by rewrite IH, attached_records.
Qed.

(** The event loop stages, after what is staged already, the tables of
    [page_results] for the events it reaches, each with its link and date. *)
Lemma event_loop_exact E self rows : forall i staged w,
  exists w',
    event_loop E self i rows staged w
    = (Ret (staged ++
            map (fun entry => attach_link_date entry.1 entry.2)
              (page_results E (if test self then take (2 - i) rows else rows) w)), w').
Proof.
  induction rows as [|row rest IH]; intros i staged w.
  - exists w. cbn [event_loop]. destruct (test self); [rewrite take_nil|];
      cbn [page_results map]; by rewrite app_nil_r.
  - destruct (test self && (2 <=? i)) eqn:Hc.
    + exists w. cbn [event_loop]. rewrite Hc.
      apply andb_true_iff in Hc as [-> Hi]. apply Nat.leb_le in Hi.
      replace (2 - i) with 0 by lia. cbn [take page_results map].
      by rewrite app_nil_r.
    + destruct (event_loop_step E self i row rest staged w Hc) as (r & w1 & Hp & ->).
      destruct (IH (S i) (staged_after row staged r) (sleep E w1).2) as (w' & ->).
      exists w'. f_equal. f_equal.
      assert (Hreach : (if test self then take (2 - i) (row :: rest) else row :: rest)
                       = row :: (if test self then take (2 - S i) rest else rest)).
      { destruct (test self); [|done]. cbn [andb] in Hc. apply Nat.leb_gt in Hc.
        replace (2 - i) with (S (2 - S i)) by lia. done. }
      rewrite Hreach. cbn [page_results]. rewrite Hp.
      destruct r as [df|]; cbn [staged_after]; [|done].
      destruct (0 <? df_len df); cbn [app map]; [|done].
      by rewrite <- app_assoc.
Qed.

(** C5.  The rows of the result, read as dicts over the output columns,
    are the rows of the table the API adapter returned in this run, when
    it returned one, followed by the rows of the tables the page adapter
    returned in this run, event after event in discovery order; the rows
    of every table keep their order, the page rows carry the link and
    date of their event, and every row the time stamp. *)
Theorem api_rows_first_then_events_in_order E self w events :
  event_links self = Some events -> events <> [] ->
  exists self' w' df,
    scrape_all_event_odds E self w = (Ret self', w') /\
    event_odds self' = Some df /\
    records_over output_columns df
    = map (stamp (curr_time self))
        (flat_map (records_over api_columns) (api_staged E self w)
         ++ flat_map (fun entry => page_rows entry.1 entry.2)
              (page_results E (processed self) (advance w (api_requests self) [] 0))).
Proof.
  intros Hl Hne.
  destruct (aggregator_result_exact E self w events Hl Hne)
    as (pages & w1 & He & Hpc & Hrun).
  destruct (event_loop_exact E self events 0 (api_staged E self w)
              (advance w (api_requests self) [] 0)) as (w2 & He').
  change (2 - 0) with 2 in He'.
  assert (Hreach : (if test self then take 2 events else events) = processed self).
  { unfold processed. by rewrite Hl. }
  rewrite Hreach in He'.
  rewrite He' in He. injection He as Hpages _. apply app_inv_head in Hpages.
  eexists _, w1, _. split; [exact Hrun|]. split; [done|].
  rewrite final_table_records.
  2:{ apply Forall_app. split; [apply api_staged_ok | by eapply page_contributions_ok]. }
  f_equal. rewrite flat_map_app. f_equal. rewrite <- Hpages.
  apply attached_tables_records, page_results_tables.
Qed.

Lemma api_rows_first_then_events_in_order_witness :
  exists self' w' df,
    scrape_all_event_odds (serving (json_response one_market_payload))
      (set_event_links (__init__ offline false (Some "key")) (Some sample_events))
      fresh_world = (Ret self', w') /\
    event_odds self' = Some df /\
    records_over output_columns df
    = map (stamp (datetime_now offline))
        (flat_map (records_over api_columns)
           (api_staged (serving (json_response one_market_payload))
              (set_event_links (__init__ offline false (Some "key")) (Some sample_events))
              fresh_world)
         ++ flat_map (fun entry => page_rows entry.1 entry.2)
              (page_results (serving (json_response one_market_payload)) sample_events
                 (advance fresh_world [odds_api_url] [] 0))).
Proof.
  apply (api_rows_first_then_events_in_order
           (serving (json_response one_market_payload))
           (set_event_links (__init__ offline false (Some "key")) (Some sample_events))
           fresh_world sample_events).
  - reflexivity.
  - discriminate.
Defined.

Lemma raising_network_fetch_fails E u w :
  (forall n v, raises (requests_get E n v)) -> fetch_fails E u w.
Proof.
  intros H. unfold fetch_fails. specialize (H (length (requests w)) u).
  by destruct (requests_get E _ _).
Qed.

Lemma event_loop_without_tables E self rows : forall i staged w,
  (forall n v, raises (requests_get E n v)) ->
  Forall (fun e => synthetic (url e) = false) rows ->
  exists w', event_loop E self i rows staged w = (Ret staged, w').
Proof.
  induction rows as [|row rest IH]; intros i staged w Hnet Hs; [by eexists|].
  apply Forall_cons in Hs as [Hrow Hrest].
  destruct (test self && (2 <=? i)) eqn:Hc.
  - cbn [event_loop]. rewrite Hc. by eexists.
  - destruct (event_loop_step E self i row rest staged w Hc) as (results & w1 & Hp & ->).
    destruct (page_adapter_degrades E (url row) w) as (r & w2 & Hr & Hnone).
    rewrite Hp in Hr. injection Hr as <- <-.
    rewrite Hnone; [|exact Hrow|by apply raising_network_fetch_fails].
    cbn [staged_after]. by apply IH.
Qed.

(** X13.  When every request fails and no event is synthetic, the run
    still returns, and the result is the empty table with the nine output
    columns in the fixed order. *)
Theorem dead_network_gives_the_empty_table E self w events :
  event_links self = Some events -> events <> [] ->
  (forall n v, raises (requests_get E n v)) ->
  Forall (fun e => synthetic (url e) = false) events ->
  exists w',
    scrape_all_event_odds E self w
    = (Ret (set_event_odds self (Some (empty_DataFrame output_columns))), w').
Proof.
  intros Hl Hne Hnet Hs.
  destruct (aggregator_result_exact E self w events Hl Hne) as (pages & w1 & He & _ & ->).
  exists w1.
  assert (Hapi : api_staged E self w = []).
  { unfold api_staged. destruct (has_api_key self); [|done].
    destruct (api_adapter_degrades E self w) as (r & w' & -> & Hnone). simpl.
    rewrite Hnone; [done|]. unfold api_fails.
    specialize (Hnet (length (requests w)) odds_api_url).
    by destruct (requests_get E _ _). }
  destruct (event_loop_without_tables E self events 0 (api_staged E self w)
              (advance w (api_requests self) [] 0) Hnet Hs) as (w' & He').
  rewrite He' in He. injection He as He _. rewrite Hapi in He |- *.
  simpl in He. by subst pages.
Qed.

Lemma dead_network_gives_the_empty_table_witness :
  exists w',
    scrape_all_event_odds offline
      (set_event_links (__init__ offline false (Some "key"))
         (Some [bfo_event 1; bfo_event 2]))
      fresh_world
    = (Ret (set_event_odds
              (set_event_links (__init__ offline false (Some "key"))
                 (Some [bfo_event 1; bfo_event 2]))
              (Some (empty_DataFrame output_columns))), w').
Proof.
  apply (dead_network_gives_the_empty_table offline
           (set_event_links (__init__ offline false (Some "key"))
              (Some [bfo_event 1; bfo_event 2]))
           fresh_world [bfo_event 1; bfo_event 2]).
  - reflexivity.
  - discriminate.
  - intros n v. exact I.
  - repeat constructor.
Defined.

Lemma event_loop_synthetic E self rows : forall i staged w,
  Forall (fun e => synthetic (url e) = true) rows ->
  exists w',
    event_loop E self i rows staged w
    = (Ret (staged ++ map sample_table (if test self then take (2 - i) rows else rows)),
       w').
Proof.
  induction rows as [|row rest IH]; intros i staged w Hs.
  - exists w. simpl. destruct (test self); [rewrite take_nil|]; by rewrite app_nil_r.
  - apply Forall_cons in Hs as [Hrow Hrest].
    destruct (test self) eqn:Ht.
    + destruct (2 <=? i) eqn:Hi.
      * exists w. cbn [event_loop]. rewrite Ht, Hi. apply Nat.leb_le in Hi.
        replace (2 - i) with 0 by lia. simpl. by rewrite app_nil_r.
      * destruct (event_loop_step E self i row rest staged w) as (r & w1 & Hp & ->);
          [by rewrite Ht, Hi|].
        destruct (page_adapter_on_synthetic_locator E (url row) w Hrow)
          as [Hsyn _].
        rewrite Hsyn in Hp. injection Hp as <- _.
        destruct (IH (S i) (staged_after row staged (Some _scrape_oddsshark_event))
                    (sleep E w1).2 Hrest) as (w' & ->).
        exists w'. apply Nat.leb_gt in Hi.
        replace (2 - i) with (S (2 - S i)) by lia.
        cbn [staged_after take map]. change (0 <? df_len _scrape_oddsshark_event) with true.
        cbv iota. by rewrite <- app_assoc.
    + destruct (event_loop_step E self i row rest staged w) as (r & w1 & Hp & ->);
        [by rewrite Ht|].
      destruct (page_adapter_on_synthetic_locator E (url row) w Hrow)
        as [Hsyn _].
      rewrite Hsyn in Hp. injection Hp as <- _.
      destruct (IH (S i) (staged_after row staged (Some _scrape_oddsshark_event))
                  (sleep E w1).2 Hrest) as (w' & ->).
      exists w'.
      cbn [staged_after map]. change (0 <? df_len _scrape_oddsshark_event) with true.
      cbv iota. by rewrite <- app_assoc.
Qed.

Lemma sample_table_columns row : columns (sample_table row) = page_columns.
Proof. unfold sample_table. apply attach_link_date_columns. reflexivity. Qed.

Lemma sample_tables_ok l : staged_ok (map sample_table l).
Proof.
  apply Forall_map, Forall_true. intros row. right. apply sample_table_columns.
Qed.

Lemma sample_tables_rows l :
  length (flat_map (records_over api_columns) (map sample_table l)) = 4 * length l.
Proof.
  induction l as [|row l IH]; [done|].
  cbn [map flat_map]. rewrite length_app, IH.
  change (length (records_over api_columns (sample_table row))) with 4.
  simpl. lia.
Qed.

Lemma aggregator_on_synthetic_events E self w events :
  event_links self = Some events -> events <> [] ->
  has_api_key self = false ->
  Forall (fun e => synthetic (url e) = true) events ->
  exists w' df,
    scrape_all_event_odds E self w = (Ret (set_event_odds self (Some df)), w') /\
    df_len df = 4 * length (processed self) /\
    records_over output_columns df
    = map (stamp (curr_time self))
        (flat_map (fun row => records_over api_columns (sample_table row))
           (processed self)).
Proof.
  intros Hl Hne Hkey Hs.
  destruct (aggregator_result_exact E self w events Hl Hne) as (pages & w1 & He & _ & ->).
  assert (Hapi : api_staged E self w = []) by (unfold api_staged; by rewrite Hkey).
  destruct (event_loop_synthetic E self events 0 (api_staged E self w)
              (advance w (api_requests self) [] 0) Hs) as (w' & He').
  rewrite He' in He. injection He as He _. rewrite Hapi in He |- *.
  simpl in He. subst pages.
  assert (Hp : (if test self then take 2 events else events) = processed self).
  { unfold processed. by rewrite Hl. }
  rewrite Hp. cbn [app].
  pose proof (final_table_records (curr_time self) (map sample_table (processed self))
                (sample_tables_ok _)) as Hrec.
  eexists w1, _. split; [done|]. split.
  - unfold df_len. rewrite <- (sample_tables_rows (processed self)).
    rewrite <- (length_map (stamp (curr_time self))), <- Hrec.
    unfold records_over. by rewrite length_map.
  - rewrite Hrec. f_equal. clear.
    induction (processed self) as [|row l IH]; [reflexivity|].
    cbn [map flat_map]. by rewrite IH.
Qed.

(** X14.  Without an API key and with synthetic locators only, as in the
    script, every event reached contributes the same four sample fights
    under its own link and date: the result has four rows for each,
    event after event. *)
Theorem synthetic_events_give_four_rows_each E self w events :
  event_links self = Some events -> events <> [] ->
  has_api_key self = false ->
  Forall (fun e => synthetic (url e) = true) events ->
  exists w' df,
    scrape_all_event_odds E self w = (Ret (set_event_odds self (Some df)), w') /\
    df_len df = 4 * length (processed self) /\
    records_over output_columns df
    = map (stamp (curr_time self))
        (flat_map (fun row => records_over api_columns (sample_table row))
           (processed self)).
Proof. apply aggregator_on_synthetic_events. Qed.

Lemma synthetic_events_give_four_rows_each_witness :
  exists w' df,
    scrape_all_event_odds offline
      (set_event_links (__init__ offline true None) (Some sample_events)) fresh_world
    = (Ret (set_event_odds
              (set_event_links (__init__ offline true None) (Some sample_events))
              (Some df)), w') /\
    df_len df = 8 /\
    records_over output_columns df
    = map (stamp (datetime_now offline))
        (flat_map (fun row => records_over api_columns (sample_table row)) sample_events).
Proof.
  apply (synthetic_events_give_four_rows_each offline
           (set_event_links (__init__ offline true None) (Some sample_events))
           fresh_world sample_events).
  - reflexivity.
  - discriminate.
  - reflexivity.
  - repeat constructor.
Defined.

(** X16.  When the API adapter returns a table, it is staged first: the
    columns of the result are the nine output columns in the fixed order,
    and the rows of the API table come first. *)
Theorem api_table_fixes_the_column_order E self w events a w0 :
  event_links self = Some events -> events <> [] ->
  has_api_key self = true ->
  _scrape_from_odds_api E self w = (Ret (Some a), w0) ->
  exists w' df pages,
    scrape_all_event_odds E self w = (Ret (set_event_odds self (Some df)), w') /\
    columns df = output_columns /\
    page_contributions E events pages /\
    records_over output_columns df
    = map (stamp (curr_time self))
        (records_over api_columns a ++ flat_map (records_over api_columns) pages).
Proof.
  intros Hl Hne Hkey Ha.
  destruct (aggregator_result_exact E self w events Hl Hne) as (pages & w1 & _ & Hpc & ->).
  assert (Hapi : api_staged E self w = [a]).
  { unfold api_staged. by rewrite Hkey, Ha. }
  rewrite Hapi.
  assert (Hok : staged_ok ([a] ++ pages)).
  { apply Forall_app. split; [|by eapply page_contributions_ok].
    rewrite <- Hapi. apply api_staged_ok. }
  eexists w1, _, pages. split; [done|]. split; [|split; [done|]].
  - rewrite final_table_columns by done. cbn [app].
    destruct (api_adapter_columns E self w a w0 Ha) as [-> _]. done.
  - rewrite final_table_records by done. done.
Qed.

Lemma api_table_fixes_the_column_order_witness :
  exists w' df pages,
    scrape_all_event_odds (serving (json_response one_market_payload))
      (set_event_links (__init__ offline false (Some "key")) (Some sample_events))
      fresh_world
    = (Ret (set_event_odds
              (set_event_links (__init__ offline false (Some "key")) (Some sample_events))
              (Some df)), w') /\
    columns df = output_columns /\
    page_contributions (serving (json_response one_market_payload)) sample_events pages /\
    records_over output_columns df
    = map (stamp (datetime_now offline))
        (records_over api_columns
           (DataFrame_of_records
              [ [ ("link", PyStr "odds_api_e912"); ("date", PyStr "2025-07-27");
                  ("event", PyStr "MMA"); ("fighter1", PyStr "Leon Edwards");
                  ("fighter2", PyStr "Belal Muhammad");
                  ("fighter1_odds", PyFloat (float_lit 185));
                  ("fighter2_odds", PyFloat (float_lit 195));
                  ("result", PyStr "") ] ])
         ++ flat_map (records_over api_columns) pages).
Proof.
  eapply (api_table_fixes_the_column_order
            (serving (json_response one_market_payload))
            (set_event_links (__init__ offline false (Some "key")) (Some sample_events))
            fresh_world sample_events).
  - reflexivity.
  - discriminate.
  - reflexivity.
  - reflexivity.
Defined.



(** ** Writing the result *)

(** X15.  With a scrape result, [write_data] stores it under
    [./data/odds_raw.csv]; when the write raises, the exception leaves
    [write_data], which has no handler, and the output file is in the
    state the failed write left it in.  In both cases no other file is
    touched and nothing is requested. *)
Theorem write_data_stores_the_result E self w df :
  event_odds self = Some df ->
  exists w',
    (write_data E self w).2 = w' /\
    match to_csv_error E with
    | None => (write_data E self w).1 = Ret tt /\ fs w' !! output_path = Some df
    | Some e => (write_data E self w).1 = Raise e /\
                fs w' !! output_path = to_csv_partial E (fs w !! output_path)
    end /\
    (forall path, path <> output_path -> fs w' !! path = fs w !! path) /\
    requests w' = requests w.
Proof.
  intros Hdf. unfold write_data, to_csv. rewrite Hdf.
  destruct (to_csv_error E) as [e|]; eexists; (split; [reflexivity|]);
    cbn [fst snd fs requests].
  - split; [split; [done | apply lookup_partial_alter_eq]|].
    split; [|done]. intros path Hp. by apply lookup_partial_alter_ne.
  - split; [split; [done | apply lookup_insert_eq]|].
    split; [|done]. intros path Hp. by apply lookup_insert_ne.
Qed.

Lemma write_data_stores_the_result_witness :
  exists w',
    (write_data disk_full
       (set_event_odds (__init__ disk_full false None)
          (Some (empty_DataFrame output_columns))) disk_with_files).2 = w' /\
    ((write_data disk_full
        (set_event_odds (__init__ disk_full false None)
           (Some (empty_DataFrame output_columns))) disk_with_files).1 = Raise OSError /\
     fs w' !! output_path = Some (empty_DataFrame [])) /\
    (forall path, path <> output_path -> fs w' !! path = fs disk_with_files !! path) /\
    requests w' = requests disk_with_files.
Proof.
  exact (write_data_stores_the_result disk_full
           (set_event_odds (__init__ disk_full false None)
              (Some (empty_DataFrame output_columns)))
           disk_with_files (empty_DataFrame output_columns) eq_refl).
Defined.

(** X23.  Without an API key the file the script writes holds sample
    fights only, whatever the network answers: with [events] the list
    discovery leaves in [event_links], it has four rows for every event
    (for the first two in test mode), each with the link and date of its
    event and the time stamp of the run. *)
Theorem script_without_key_writes_sample_fights E test_flag w :
  to_csv_error E = None ->
  exists events w0 df w',
    get_individual_event_urls E (__init__ E test_flag None) w
    = (Ret (set_event_links (__init__ E test_flag None) (Some events)), w0) /\
    main E test_flag None w = (Ret tt, w') /\
    1 <= length events <= 10 /\
    fs w' !! output_path = Some df /\
    df_len df = 4 * length (if test_flag then take 2 events else events) /\
    records_over output_columns df
    = map (stamp (datetime_now E))
        (flat_map (fun row => records_over api_columns (sample_table row))
           (if test_flag then take 2 events else events)).
Proof.
  intros Hdisk. unfold main.
  destruct (discovery_events E (__init__ E test_flag None) w)
    as (found & events & _ & _ & Hd & Hlen & Hs).
  rewrite (bind_returned _ _ _ _ _ Hd).
  set (s1 := set_event_links (__init__ E test_flag None) (Some events)) in *.
  assert (Hne : events <> []) by (destruct events; [simpl in Hlen; lia | done]).
  destruct (aggregator_on_synthetic_events E s1
              (advance w [oddsshark_url] [] 0) events eq_refl Hne eq_refl Hs)
    as (w1 & df & Ha & Hrows & Hrec).
  rewrite (bind_returned _ _ _ _ _ Ha).
  exists events, (advance w [oddsshark_url] [] 0), df.
  unfold write_data, to_csv. cbn [event_odds set_event_odds].
  rewrite Hdisk. eexists. split; [exact Hd|]. split; [done|]. split; [done|].
  cbn [fs]. split; [apply lookup_insert_eq|]. done.
Qed.

Lemma script_without_key_writes_sample_fights_witness :
  exists events w0 df w',
    get_individual_event_urls offline (__init__ offline true None) fresh_world
    = (Ret (set_event_links (__init__ offline true None) (Some events)), w0) /\
    main offline true None fresh_world = (Ret tt, w') /\
    1 <= length events <= 10 /\
    fs w' !! output_path = Some df /\
    df_len df = 4 * length (take 2 events) /\
    records_over output_columns df
    = map (stamp (datetime_now offline))
        (flat_map (fun row => records_over api_columns (sample_table row))
           (take 2 events)).
Proof.
  exact (script_without_key_writes_sample_fights offline true fresh_world eq_refl).
Defined.

(** ** The patterns *)

Lemma greedy_sound f lo k r :
  greedy f lo k = Some r -> exists j, lo <= j <= k /\ f j = Some r.
Proof.
  induction k as [|k IH]; cbn [greedy].
  - destruct (0 <? lo) eqn:Hlo; [done|]. apply Nat.ltb_ge in Hlo.
    destruct (f 0) eqn:Hf; [|done]. intros [= ->]. exists 0. split; [lia | done].
  - destruct (S k <? lo) eqn:Hlo; [done|]. apply Nat.ltb_ge in Hlo.
    destruct (f (S k)) eqn:Hf.
    + intros [= ->]. exists (S k). split; [lia | done].
    + intros Hg. destruct (IH Hg) as (j & Hj & Hfj). exists j. split; [lia | done].
Qed.

Lemma greedy_first f lo k r : lo <= k -> f k = Some r -> greedy f lo k = Some r.
Proof.
  intros Hlo Hf. destruct k as [|k]; cbn [greedy].
  - replace (0 <? lo) with false by (symmetry; apply Nat.ltb_ge; lia). by rewrite Hf.
  - replace (S k <? lo) with false by (symmetry; apply Nat.ltb_ge; lia). by rewrite Hf.
Qed.

Lemma span_take p j s :
  j <= span p s -> forallb p (take j s) = true /\ length (take j s) = j.
Proof.
  revert s. induction j as [|j IH]; intros s Hj; [by destruct s|].
  destruct s as [|c s]; cbn [span] in Hj; [lia|].
  destruct (p c) eqn:Hc; [|lia]. destruct (IH s ltac:(lia)) as [Hall Hlen].
  cbn [take forallb length]. by rewrite Hc, Hall, Hlen.
Qed.

Lemma span_digits l rest :
  forallb is_digit l = true ->
  match rest with [] => True | c :: _ => is_digit c = false end ->
  span is_digit (l ++ rest) = length l.
Proof.
  intros Hl Hrest. induction l as [|c l IH]; cbn [forallb app span length] in *.
  - destruct rest as [|c rest]; [done|]. cbn [span]. by rewrite Hrest.
  - apply andb_true_iff in Hl as [-> Hl]. by rewrite IH.
Qed.

(** X24.  The pattern for odds accepts exactly the plain decimals: one
    digit or more, a point, one digit or more, and nothing else but a
    final newline.  Signs, thousands separators, fractions and American
    odds are not read as odds. *)
Theorem is_decimal_iff text :
  is_decimal text = true <->
  exists ip fp,
    digits ip = true /\ digits fp = true /\
    (chars text = ip ++ "."%char :: fp \/
     chars text = ip ++ "."%char :: fp ++ [newline]).
Proof.
  unfold is_decimal, decimal_pattern. split.
  - destruct (match_here _ at_end (chars text)) as [n|] eqn:Hm; [intros _|done].
    cbn [match_here digit one_of cls rmin rmax] in Hm.
    apply greedy_sound in Hm as (j1 & Hj1 & Hm).
    destruct (greedy _ 1 _) as [n2|] eqn:Hm2 in Hm; [|done]. clear Hm.
    apply greedy_sound in Hm2 as (j2 & Hj2 & Hm2).
    destruct (greedy _ 1 _) as [n3|] eqn:Hm3 in Hm2; [|done]. clear Hm2.
    apply greedy_sound in Hm3 as (j3 & Hj3 & Hm3).
    destruct (at_end _) eqn:Hend in Hm3; [|done]. clear Hm3.
    set (s := chars text) in *. set (s1 := drop j1 s) in *. set (s2 := drop j2 s1) in *.
    destruct (span_take is_digit j1 s ltac:(lia)) as [Hip Hlen1].
    destruct (span_take is_digit j3 s2 ltac:(lia)) as [Hfp Hlen3].
    assert (Hdot : s1 = "."%char :: s2 /\ j2 = 1).
    { assert (j2 = 1) as -> by lia. split; [|done].
      destruct s1 as [|c s1'] eqn:Hs1; [simpl in Hj2; lia|].
      unfold s2. cbn [drop]. f_equal. simpl in Hj2.
      destruct (Ascii.eqb_spec c "."%char) as [->|Hne]; [done|].
      cbn [orb] in Hj2. simpl in Hj2. lia. }
    destruct Hdot as [Hs1 _].
    exists (take j1 s), (take j3 s2).
    assert (Hd1 : digits (take j1 s) = true).
    { unfold digits. destruct (take j1 s); [simpl in Hlen1; lia | done]. }
    assert (Hd3 : digits (take j3 s2) = true).
    { unfold digits. destruct (take j3 s2); [simpl in Hlen3; lia | done]. }
    split; [done|]. split; [done|].
    rewrite <- (take_drop j1 s) at 1 3. fold s1. rewrite Hs1.
    rewrite <- (take_drop j3 s2) at 1 3.
    destruct (drop j3 s2) as [|c [|c' rest]] eqn:Hrest; simpl in Hend; [| |done].
    + left. by rewrite app_nil_r.
    + right. by apply Ascii.eqb_eq in Hend as ->.
  - intros (ip & fp & Hip & Hfp & Htext).
    assert (Hmatch : forall tail, at_end tail = true ->
              match tail with [] => True | c :: _ => is_digit c = false end ->
              match_here [digit 1 None; one_of ["."%char]; digit 1 None] at_end
                (ip ++ "."%char :: fp ++ tail) = Some (length ip + (1 + (length fp + 0)))).
    { intros tail Hend Htail.
      assert (Hip' : forallb is_digit ip = true /\ 1 <= length ip).
      { unfold digits in Hip. destruct ip; [done|]. split; [done | simpl; lia]. }
      assert (Hfp' : forallb is_digit fp = true /\ 1 <= length fp).
      { unfold digits in Hfp. destruct fp; [done|]. split; [done | simpl; lia]. }
      destruct Hip' as [Hip1 Hip2], Hfp' as [Hfp1 Hfp2].
      cbn [match_here digit one_of cls rmin rmax].
      rewrite (span_digits ip ("."%char :: fp ++ tail)) by done.
      apply greedy_first; [done|].
      rewrite drop_app_length. cbn [span existsb]. rewrite Ascii.eqb_refl. cbn [orb].
      assert (Hmin : 1 `min` S (span (fun c => Ascii.eqb c "." || false) (fp ++ tail)) = 1)
        by lia.
      rewrite Hmin. rewrite (greedy_first _ 1 1 (1 + (length fp + 0))); [done | done |].
      cbn [drop]. rewrite !drop_0, (span_digits fp tail) by done.
      rewrite (greedy_first _ 1 (length fp) (length fp + 0)); [done | done |].
      rewrite drop_app_length. by rewrite Hend. }
    destruct Htext as [-> | ->].
    + specialize (Hmatch [] eq_refl I). rewrite app_nil_r in Hmatch. by rewrite Hmatch.
    + by rewrite (Hmatch [newline] eq_refl eq_refl).
Qed.

Lemma no_digit_no_date s :
  forallb (fun c => negb (is_digit c)) s = true -> re_search date_pattern s = None.
Proof.
  induction s as [|c s IH]; intros Hs.
  - reflexivity.
  - simpl in Hs. apply andb_true_iff in Hs as [Hc Hs].
    cbn [re_search]. rewrite IH by done.
    unfold date_pattern. cbn [match_here digit cls rmin rmax span].
    apply negb_true_iff in Hc. rewrite Hc. reflexivity.
Qed.

(** X25.  An event whose text holds no digit gets today's date: the date
    of the listing is used only when the text shows one. *)
Theorem event_without_digits_is_dated_today E text n :
  forallb (fun c => negb (is_digit c)) (chars text) = true ->
  Date (event_of_text E text n) = strftime_now E.
Proof.
  intros Hs. unfold event_of_text. cbn [Date]. by rewrite no_digit_no_date.
Qed.

Lemma event_without_digits_is_dated_today_witness :
  Date (event_of_text offline "UFC Fight Night: Sandhagen vs Nurmagomedov" 0)
  = "03 Nov 26".
Proof.
  exact (event_without_digits_is_dated_today offline
           "UFC Fight Night: Sandhagen vs Nurmagomedov" 0 eq_refl).
Defined.

(** * Properties of the database setup script *)

Import SetupDatabase.

(** Runs [setup_database] on every answer the collaborators can give. *)
Ltac setup_cases :=
  unfold SetupDatabase.main, setup_database, try_except_finally, perform, path_exists,
    reraise, given, mbind, DB_mbind, DB_bind, DB_ret;
  repeat (cbn [app fst snd negb andb db_path data_file no_backup schema_only];
          match goal with
          | |- context [raised_by ?C ?j ?c] => destruct (raised_by C j c) eqn:?
          | |- context [os_path_exists ?C ?j ?p] => destruct (os_path_exists C j p) eqn:?
          | |- context [if ?b then _ else _] => destruct b eqn:?
          | |- context [match ?o with Some _ => _ | None => _ end] => destruct o eqn:?
          end);
  cbn [app fst snd negb andb].

(** X17.  The setup script swallows no failure: its exit status is 0
    exactly when every collaborator call it made returned, and 1 as soon
    as one raised. *)
Theorem setup_exit_status C a :
  ((SetupDatabase.main C a).1 = 0 <-> failed (SetupDatabase.main C a).2 = []) /\
  ((SetupDatabase.main C a).1 = 1 <-> failed (SetupDatabase.main C a).2 <> []).
Proof.
  destruct a as [db f nb so]. setup_cases; split; split; done.
Qed.

Ltac entry_cases :=
  repeat match goal with
         | H : _ ∈ [] |- _ => by apply not_elem_of_nil in H
         | H : _ ∈ _ :: _ |- _ => apply elem_of_cons in H as [H|H]; simplify_eq
         end.

Ltac in_order := eauto 14 using sublist_nil, sublist_cons, sublist_skip.

(** X18.  What the setup opens it closes, whatever fails in between: a
    database object that was constructed is closed later on, and so is a
    migrator. *)
Theorem setup_closes_what_it_opens C db f backup :
  let j := (setup_database C db f backup []).2 in
  ((UFCDatabase db, true) ∈ j -> sublist [UFCDatabase db; db_close] (calls j)) /\
  ((UFCDataMigrator db ".", true) ∈ j ->
   sublist [UFCDataMigrator db "."; migrator_close] (calls j)).
Proof.
  setup_cases; split; intros Hin; entry_cases; unfold calls; cbn [map fst]; in_order.
Qed.

Lemma setup_closes_what_it_opens_witness :
  sublist [UFCDatabase "ufc_data.db"; db_close]
    (calls (setup_database broken_schema "ufc_data.db" None true []).2).
Proof.
  apply (setup_closes_what_it_opens broken_schema "ufc_data.db" None true).
  vm_compute. apply list_elem_of_In. simpl. tauto.
Defined.



(** X20.  With [--schema-only], with an empty data file name, or when the
    data file does not exist, no migrator is constructed and nothing is
    migrated. *)
Theorem nothing_migrated_without_data_file C a :
  schema_only a = true \/ data_file a = "" \/
  (forall j, os_path_exists C j (data_file a) = false) ->
  Forall (fun c => is_migrator_call c = false) (calls (SetupDatabase.main C a).2).
Proof.
  destruct a as [db f nb so]. cbn [schema_only data_file].
  intros [-> | [-> | Hmissing]]; setup_cases;
    try match goal with H : os_path_exists _ _ f = true |- _ =>
          by rewrite Hmissing in H end;
    try discriminate; unfold calls; cbn [map fst]; by repeat constructor.
Qed.

Lemma nothing_migrated_without_data_file_witness :
  Forall (fun c => is_migrator_call c = false)
    (calls (SetupDatabase.main healthy
              {| db_path := "ufc_data.db"; data_file := "complete_ufc_data.csv";
                 no_backup := false; schema_only := true |}).2).
Proof.
  apply (nothing_migrated_without_data_file healthy
           {| db_path := "ufc_data.db"; data_file := "complete_ufc_data.csv";
              no_backup := false; schema_only := true |}).
  left. reflexivity.
Defined.


(** X22.  When creating the schema fails the database is still closed,
    the setup raises and nothing is migrated; after a failed
    [create_tables] the indexes are not attempted. *)
Theorem failed_schema_stops_the_setup C db f backup :
  let r := setup_database C db f backup [] in
  (create_tables, false) ∈ r.2 \/ (create_indexes, false) ∈ r.2 ->
  raises r.1 /\ db_close ∈ calls r.2 /\
  Forall (fun c => is_migrator_call c = false) (calls r.2) /\
  ((create_tables, false) ∈ r.2 -> create_indexes ∉ calls r.2).
Proof.
  setup_cases; unfold calls; cbn [map fst]; intros [Hin|Hin]; entry_cases;
    (split; [done|]); (split; [apply list_elem_of_In; simpl; tauto|]);
    (split; [by repeat constructor|]); intros Hin Hc; entry_cases.
Qed.

Lemma failed_schema_stops_the_setup_witness :
  raises (setup_database broken_schema "ufc_data.db" (Some "data.csv") true []).1 /\
  db_close ∈ calls (setup_database broken_schema "ufc_data.db" (Some "data.csv") true []).2 /\
  Forall (fun c => is_migrator_call c = false)
    (calls (setup_database broken_schema "ufc_data.db" (Some "data.csv") true []).2) /\
  ((create_tables, false) ∈ (setup_database broken_schema "ufc_data.db" (Some "data.csv") true []).2 ->
   create_indexes ∉ calls (setup_database broken_schema "ufc_data.db" (Some "data.csv") true []).2).
Proof.
  apply (failed_schema_stops_the_setup broken_schema "ufc_data.db" (Some "data.csv") true).
  left. vm_compute. apply list_elem_of_In. simpl. tauto.
Defined.

